(** * analyze_bytes.py: the offset interpreter and the pattern scanner

    A shallow embedding of [logic_reverse_engineering/scripts/analyze_bytes.py]
    ([analyze_offset] and [scan_for_value]) together with the small part of the
    Python runtime the two functions call into: [range], slicing, [int()],
    [float()], [struct.pack], [struct.unpack], [bytes.decode('utf-8')],
    [str.isprintable] and the seek/read pair on a binary file.

    Conventions.
    - A byte string is a [list byte]; a Python [int] is a [Z].
    - A Python [float] is its IEEE-754 binary64 bit pattern, a [Z] whose low
      64 bits are significant.
    - An exception is the [Raise] case of [Result]. *)

From Stdlib Require Import ZArith String Ascii Bool Lia Sorted.
From Stdlib Require Import Strings.Byte.
From Stdlib Require Import List.
From Stdlib Require Import Floats.SpecFloat.
Import ListNotations.

Local Open Scope Z_scope.

(** ** Exceptions and results *)

Inductive PyExc : Set :=
| ValueError
| OverflowError
| OSError
| IndexError
| UnicodeDecodeError
| struct_error.

Inductive Result (A : Type) : Type :=
| Ok (a : A)
| Raise (e : PyExc).

Arguments Ok {A} a.
Arguments Raise {A} e.

Definition bind {A B : Type} (r : Result A) (k : A -> Result B) : Result B :=
  match r with
  | Ok a => k a
  | Raise e => Raise e
  end.

Notation "x <- r ;; k" := (bind r (fun x => k))
  (at level 61, r at next level, right associativity).

(** [try: body  except: handler] with a bare [except]. *)
Definition try_except {A : Type} (body : Result A) (handler : A) : A :=
  match body with
  | Ok a => a
  | Raise _ => handler
  end.

Definition raises {A : Type} (r : Result A) : bool :=
  match r with
  | Ok _ => false
  | Raise _ => true
  end.

(** ** Bytes, [len], [range] and slices *)

Definition bytes := list byte.

Definition byte_to_Z (b : byte) : Z := Z.of_N (Byte.to_N b).

Definition byte_of_Z (n : Z) : byte :=
  match Byte.of_N (Z.to_N (n mod 256)) with
  | Some b => b
  | None => x00
  end.

Definition len {A : Type} (l : list A) : Z := Z.of_nat (length l).

(** [range(n)]: 0, 1, ..., n-1; empty when [n <= 0]. *)
Definition py_range (n : Z) : list Z :=
  map Z.of_nat (seq 0 (Z.to_nat n)).

(** A slice bound, normalised as Python does: a negative bound counts from
    the end, and both ends are clamped into [0, len]. *)
Definition slice_bound (n i : Z) : Z :=
  if i <? 0 then Z.max 0 (i + n) else Z.min i n.

(** [l[i:j]] *)
Definition py_slice {A : Type} (l : list A) (i j : Z) : list A :=
  let a := slice_bound (len l) i in
  let b := slice_bound (len l) j in
  firstn (Z.to_nat (b - a)) (skipn (Z.to_nat a) l).

Fixpoint bytes_eqb (a b : bytes) : bool :=
  match a, b with
  | [], [] => true
  | x :: a', y :: b' => Byte.eqb x y && bytes_eqb a' b'
  | _, _ => false
  end.

(** ** Byte order *)

Inductive ByteOrder : Set := LittleEndian | BigEndian.

(** Little-endian value of a byte string. *)
Fixpoint le_value (bs : bytes) : Z :=
  match bs with
  | [] => 0
  | b :: bs' => byte_to_Z b + 256 * le_value bs'
  end.

(** The [n] little-endian bytes of [v]. *)
Fixpoint le_bytes (n : nat) (v : Z) : bytes :=
  match n with
  | O => []
  | S n' => byte_of_Z v :: le_bytes n' (v / 256)
  end.

Definition order_bytes (o : ByteOrder) (bs : bytes) : bytes :=
  match o with
  | LittleEndian => bs
  | BigEndian => rev bs
  end.

Definition uint_of_bytes (o : ByteOrder) (bs : bytes) : Z :=
  le_value (order_bytes o bs).

Definition bytes_of_uint (o : ByteOrder) (n : nat) (v : Z) : bytes :=
  order_bytes o (le_bytes n v).

(** ** IEEE-754 interchange formats

    [binary32] is C's [float], [binary64] is C's [double] and Python's
    [float].  A bit pattern is decoded into its class; finite values carry
    the integer significand [m] and the exponent [e] of [m * 2^e], as in
    [spec_float]. *)

Inductive ieee : Set :=
| Zero (s : bool)
| Inf (s : bool)
| NaN (s : bool) (payload : Z)
| Finite (s : bool) (m : positive) (e : Z).

Record format : Set := { mant_bits : Z; expo_bits : Z }.

Definition binary32 : format := {| mant_bits := 23; expo_bits := 8 |}.
Definition binary64 : format := {| mant_bits := 52; expo_bits := 11 |}.

Definition fprec (f : format) : Z := mant_bits f + 1.
Definition femax (f : format) : Z := 2 ^ (expo_bits f - 1).
Definition fbias (f : format) : Z := femax f - 1.

Definition sign_field (f : format) (b : Z) : bool :=
  Z.testbit b (mant_bits f + expo_bits f).
Definition expo_field (f : format) (b : Z) : Z :=
  Z.land (Z.shiftr b (mant_bits f)) (Z.ones (expo_bits f)).
Definition mant_field (f : format) (b : Z) : Z :=
  Z.land b (Z.ones (mant_bits f)).

Definition decode (f : format) (b : Z) : ieee :=
  let s := sign_field f b in
  let e := expo_field f b in
  let m := mant_field f b in
  if e =? Z.ones (expo_bits f) then
    if m =? 0 then Inf s else NaN s m
  else if e =? 0 then
    match m with
    | Zpos p => Finite s p (2 - femax f - mant_bits f)
    | _ => Zero s
    end
  else
    match 2 ^ mant_bits f + m with
    | Zpos p => Finite s p (e - fbias f - mant_bits f)
    | _ => Zero s
    end.

Definition sign_bit (f : format) (s : bool) : Z :=
  if s then 2 ^ (mant_bits f + expo_bits f) else 0.

Definition encode (f : format) (x : ieee) : Z :=
  match x with
  | Zero s => sign_bit f s
  | Inf s => sign_bit f s + Z.shiftl (Z.ones (expo_bits f)) (mant_bits f)
  | NaN s p =>
      sign_bit f s + Z.shiftl (Z.ones (expo_bits f)) (mant_bits f)
      + Z.land p (Z.ones (mant_bits f))
  | Finite s m e =>
      if Zpos m <? 2 ^ mant_bits f then sign_bit f s + Zpos m
      else sign_bit f s
           + Z.shiftl (e + fbias f + mant_bits f) (mant_bits f)
           + (Zpos m - 2 ^ mant_bits f)
  end.

Definition quiet_bit (f : format) : Z := 2 ^ (mant_bits f - 1).

Definition of_spec_float (f : format) (x : spec_float) : ieee :=
  match x with
  | S754_zero s => Zero s
  | S754_infinity s => Inf s
  | S754_nan => NaN false (quiet_bit f)
  | S754_finite s m e => Finite s m e
  end.

(** Rounding [m * 2^e] to the nearest value of format [f], ties to even;
    the result is an infinity when the rounded value is out of range. *)
Definition round_to (f : format) (s : bool) (m : positive) (e : Z) : ieee :=
  of_spec_float f (binary_round (fprec f) (femax f) s m e).

(** The C conversion between [float] and [double] ([(float)x], [(double)x])
    on bit patterns.  A NaN stays a NaN: the sign and the leading payload
    bits are kept and the result is quiet. *)
Definition convert (src dst : format) (b : Z) : Z :=
  match decode src b with
  | Zero s => encode dst (Zero s)
  | Inf s => encode dst (Inf s)
  | NaN s p =>
      encode dst
        (NaN s (Z.lor (quiet_bit dst)
                      (Z.shiftl p (mant_bits dst - mant_bits src))))
  | Finite s m e => encode dst (round_to dst s m e)
  end.

Definition is_inf (f : format) (b : Z) : bool :=
  match decode f b with
  | Inf _ => true
  | _ => false
  end.

Definition is_nan (f : format) (b : Z) : bool :=
  match decode f b with
  | NaN _ _ => true
  | _ => false
  end.

(** ** Python objects passed as the scan target

    [main] passes the command-line word, a [str]; the function itself
    accepts whatever [float()] and [int()] accept, and the two numeric
    types are modelled as well. *)

Inductive PyObj : Set :=
| PyStr (s : string)
| PyInt (n : Z)
| PyFloat (x : Z).

(** Character codes of a [str].  Target strings are taken over the
    one-byte alphabet of [ascii]; only codes below 128 take part in the
    number syntax. *)
Definition codes (s : string) : list Z :=
  map (fun a => Z.of_N (N_of_ascii a)) (list_ascii_of_string s).

Definition is_space (c : Z) : bool := (c =? 32) || ((9 <=? c) && (c <=? 13)).
Definition is_digit (c : Z) : bool := (48 <=? c) && (c <=? 57).
Definition lower (c : Z) : Z := if (65 <=? c) && (c <=? 90) then c + 32 else c.

Fixpoint lstrip (s : list Z) : list Z :=
  match s with
  | c :: s' => if is_space c then lstrip s' else s
  | [] => []
  end.

Definition strip (s : list Z) : list Z := rev (lstrip (rev (lstrip s))).

(** The leading run of decimal digits and what follows it. *)
Fixpoint span_digits (s : list Z) : list Z * list Z :=
  match s with
  | c :: s' =>
      if is_digit c then let (d, r) := span_digits s' in (c :: d, r)
      else ([], s)
  | [] => ([], [])
  end.

Definition digits_value (d : list Z) : Z :=
  fold_left (fun acc c => 10 * acc + (c - 48)) d 0.

(** An optional sign: [true] for a minus. *)
Definition take_sign (s : list Z) : bool * list Z :=
  match s with
  | 45 :: s' => (true, s')
  | 43 :: s' => (false, s')
  | _ => (false, s)
  end.

(** Underscores in a numeric literal: allowed only between two digits. *)
Fixpoint strip_underscores (prev : Z) (s : list Z) : option (list Z) :=
  match s with
  | [] => if prev =? 95 then None else Some []
  | c :: s' =>
      if c =? 95 then
        if is_digit prev then strip_underscores c s' else None
      else if (prev =? 95) && negb (is_digit c) then None
      else option_map (cons c) (strip_underscores c s')
  end.

(** *** [float(str)] *)

(** The double nearest to [(-1)^s * m * 10^k], ties to even. *)
Definition decimal_to_double (s : bool) (m k : Z) : Z :=
  if 0 <=? k then
    match m * 10 ^ k with
    | Zpos p => encode binary64 (round_to binary64 s p 0)
    | _ => encode binary64 (Zero s)
    end
  else
    let den := 10 ^ (- k) in
    let sh := Z.log2 den + 64 in
    let num := m * 2 ^ sh in
    let sticky := if num mod den =? 0 then 0 else 1 in
    match 2 * (num / den) + sticky with
    | Zpos p => encode binary64 (round_to binary64 s p (- sh - 1))
    | _ => encode binary64 (Zero s)
    end.

(** The exponent part of a decimal literal: nothing, or [e]/[E], an
    optional sign and at least one digit, up to the end of the text. *)
Definition parse_exponent (s : list Z) : option Z :=
  match s with
  | [] => Some 0
  | c :: s' =>
      if lower c =? 101 then
        let (neg, s'') := take_sign s' in
        match span_digits s'' with
        | ((_ :: _) as d, []) =>
            Some (if neg then - digits_value d else digits_value d)
        | _ => None
        end
      else None
  end.

Definition parse_decimal (s : list Z) : option Z :=
  let (neg, s1) := take_sign s in
  let (ip, s2) := span_digits s1 in
  let (fp, s3) :=
    match s2 with
    | 46 :: s2' => span_digits s2'
    | _ => ([], s2)
    end in
  match ip ++ fp with
  | [] => None
  | d =>
      match parse_exponent s3 with
      | Some x => Some (decimal_to_double neg (digits_value d) (x - len fp))
      | None => None
      end
  end.

Definition str_inf : list Z := [105; 110; 102].
Definition str_infinity : list Z := [105; 110; 102; 105; 110; 105; 116; 121].
Definition str_nan : list Z := [110; 97; 110].

Definition codes_eqb (a b : list Z) : bool :=
  if list_eq_dec Z.eq_dec a b then true else false.

Definition parse_inf_or_nan (s : list Z) : option Z :=
  let (neg, s') := take_sign s in
  let w := map lower s' in
  if codes_eqb w str_inf || codes_eqb w str_infinity then
    Some (encode binary64 (Inf neg))
  else if codes_eqb w str_nan then
    Some (encode binary64 (NaN neg (quiet_bit binary64)))
  else None.

Definition float_from_string (s : string) : Result Z :=
  match strip_underscores 0 (codes s) with
  | None => Raise ValueError
  | Some t =>
      let w := strip t in
      match parse_inf_or_nan w with
      | Some x => Ok x
      | None =>
          match parse_decimal w with
          | Some x => Ok x
          | None => Raise ValueError
          end
      end
  end.

(** *** [int(str)], base 10 *)

Definition max_str_digits : Z := 4300.

(** Digits with single underscores between them; returns the digits. *)
Fixpoint scan_int_digits (prev : Z) (s : list Z) : option (list Z * list Z) :=
  match s with
  | c :: s' =>
      if c =? 95 then
        if prev =? 95 then None
        else scan_int_digits c s'
      else if is_digit c then
        match scan_int_digits c s' with
        | Some (d, r) => Some (c :: d, r)
        | None => None
        end
      else if prev =? 95 then None else Some ([], s)
  | [] => if prev =? 95 then None else Some ([], [])
  end.

Definition long_from_string (s : string) : Result Z :=
  let (neg, s1) := take_sign (lstrip (codes s)) in
  match s1 with
  | 95 :: _ => Raise ValueError
  | _ =>
      match scan_int_digits 0 s1 with
      | Some ((_ :: _) as d, r) =>
          if max_str_digits <? len d then Raise ValueError
          else
            match lstrip r with
            | [] => Ok (if neg then - digits_value d else digits_value d)
            | _ => Raise ValueError
            end
      | _ => Raise ValueError
      end
  end.

(** *** [float(x)] and [int(x)] *)

Definition py_float (v : PyObj) : Result Z :=
  match v with
  | PyStr s => float_from_string s
  | PyInt n =>
      match n with
      | Z0 => Ok (encode binary64 (Zero false))
      | Zpos p =>
          match round_to binary64 false p 0 with
          | Inf _ => Raise OverflowError
          | x => Ok (encode binary64 x)
          end
      | Zneg p =>
          match round_to binary64 true p 0 with
          | Inf _ => Raise OverflowError
          | x => Ok (encode binary64 x)
          end
      end
  | PyFloat x => Ok x
  end.

Definition py_int (v : PyObj) : Result Z :=
  match v with
  | PyStr s => long_from_string s
  | PyInt n => Ok n
  | PyFloat x =>
      match decode binary64 x with
      | NaN _ _ => Raise ValueError
      | Inf _ => Raise OverflowError
      | Zero _ => Ok 0
      | Finite s m e =>
          let a := if 0 <=? e then Zpos m * 2 ^ e else Zpos m / 2 ^ (- e) in
          Ok (if s then - a else a)
      end
  end.

(** ** [struct.pack] and [struct.unpack]

    Only the format strings the script uses: [<f >f <I >I <i >i <H >H b]. *)

(** [struct.pack('<I', n)] / [struct.pack('>I', n)] *)
Definition struct_pack_I (o : ByteOrder) (n : Z) : Result bytes :=
  if (0 <=? n) && (n <=? 4294967295) then Ok (bytes_of_uint o 4 n)
  else Raise struct_error.

(** [struct.pack('<f', x)] / [struct.pack('>f', x)]: the double is
    converted to a C float; a finite double that becomes an infinity is
    refused ("float too large to pack with f format"). *)
Definition struct_pack_f (o : ByteOrder) (x : Z) : Result bytes :=
  let y := convert binary64 binary32 x in
  if is_inf binary32 y && negb (is_inf binary64 x) then Raise OverflowError
  else Ok (bytes_of_uint o 4 y).

(** [struct.unpack] checks the buffer size against the format first. *)
Definition require_size (size : Z) (data : bytes) : Result unit :=
  if len data =? size then Ok tt else Raise struct_error.

Definition to_signed (width : Z) (u : Z) : Z :=
  if u <? 2 ^ (width - 1) then u else u - 2 ^ width.

Definition struct_unpack_f (o : ByteOrder) (data : bytes) : Result Z :=
  _ <- require_size 4 data ;;
  Ok (convert binary32 binary64 (uint_of_bytes o data)).

Definition struct_unpack_I (o : ByteOrder) (data : bytes) : Result Z :=
  _ <- require_size 4 data ;;
  Ok (uint_of_bytes o data).

Definition struct_unpack_i (o : ByteOrder) (data : bytes) : Result Z :=
  _ <- require_size 4 data ;;
  Ok (to_signed 32 (uint_of_bytes o data)).

Definition struct_unpack_H (o : ByteOrder) (data : bytes) : Result Z :=
  _ <- require_size 2 data ;;
  Ok (uint_of_bytes o data).

Definition struct_unpack_b (data : bytes) : Result Z :=
  _ <- require_size 1 data ;;
  Ok (to_signed 8 (uint_of_bytes LittleEndian data)).

(** [data[i]] for [i >= 0] *)
Definition py_index (data : bytes) (i : Z) : Result Z :=
  if i <? 0 then Raise IndexError
  else
    match nth_error data (Z.to_nat i) with
    | Some b => Ok (byte_to_Z b)
    | None => Raise IndexError
    end.

(** ** Reading the window: [f.seek(offset); f.read(byte_count)]

    The file is its content.  A negative offset is refused by [seek];
    [read(-1)] reads to the end and a smaller count is refused; seeking
    past the end is allowed and the read is then empty.  Offsets and
    counts are taken within the range of the platform's file offsets. *)
Definition seek_read (content : bytes) (offset byte_count : Z) : Result bytes :=
  if offset <? 0 then Raise OSError
  else if byte_count <? -1 then Raise ValueError
  else
    let rest := skipn (Z.to_nat offset) content in
    Ok (if byte_count =? -1 then rest
        else firstn (Z.to_nat byte_count) rest).

(** ** [bytes.decode('utf-8')], strict

    The result is the list of code points.  Overlong forms, surrogates,
    code points above U+10FFFF, stray continuation bytes and truncated
    sequences are errors. *)

Definition in_range (lo hi : Z) (b : byte) : bool :=
  (lo <=? byte_to_Z b) && (byte_to_Z b <=? hi).

Definition cont (b : byte) : Z := byte_to_Z b - 128.

Fixpoint utf8_decode (bs : bytes) : Result (list Z) :=
  match bs with
  | [] => Ok []
  | b0 :: r0 =>
      let c0 := byte_to_Z b0 in
      if c0 <? 128 then
        t <- utf8_decode r0 ;; Ok (c0 :: t)
      else if (194 <=? c0) && (c0 <=? 223) then
        match r0 with
        | b1 :: r1 =>
            if in_range 128 191 b1 then
              t <- utf8_decode r1 ;; Ok ((c0 - 192) * 64 + cont b1 :: t)
            else Raise UnicodeDecodeError
        | _ => Raise UnicodeDecodeError
        end
      else if (224 <=? c0) && (c0 <=? 239) then
        match r0 with
        | b1 :: b2 :: r2 =>
            let lo := if c0 =? 224 then 160 else 128 in
            let hi := if c0 =? 237 then 159 else 191 in
            if in_range lo hi b1 && in_range 128 191 b2 then
              t <- utf8_decode r2 ;;
              Ok ((c0 - 224) * 4096 + cont b1 * 64 + cont b2 :: t)
            else Raise UnicodeDecodeError
        | _ => Raise UnicodeDecodeError
        end
      else if (240 <=? c0) && (c0 <=? 244) then
        match r0 with
        | b1 :: b2 :: b3 :: r3 =>
            let lo := if c0 =? 240 then 144 else 128 in
            let hi := if c0 =? 244 then 143 else 191 in
            if in_range lo hi b1 && in_range 128 191 b2
               && in_range 128 191 b3 then
              t <- utf8_decode r3 ;;
              Ok ((c0 - 240) * 262144 + cont b1 * 4096 + cont b2 * 64
                  + cont b3 :: t)
            else Raise UnicodeDecodeError
        | _ => Raise UnicodeDecodeError
        end
      else Raise UnicodeDecodeError
  end.

(** ** The program

    Both functions first check that the file exists and read it; the
    embedding starts from the content of the file, and each function
    returns what it reports instead of printing it. *)

(** The encoding tags [scan_for_value] attaches to a match. *)
Inductive Encoding : Set := float_le | float_be | uint32_le | uint32_be.

(** The labels of the interpretation lines [analyze_offset] prints:
    "Float (LE)", "Float (BE)", "Uint32 (LE)", "Uint32 (BE)", "Int32 (LE)",
    "Int32 (BE)", "Uint16 (LE)", "Uint16 (BE)", "Uint8", "Int8", "ASCII". *)
Inductive Label : Set :=
| Float_LE | Float_BE | Uint32_LE | Uint32_BE | Int32_LE | Int32_BE
| Uint16_LE | Uint16_BE | Uint8 | Int8 | ASCII.

(** What a line shows after its label: a float (its binary64 pattern), an
    integer, a character, or the text "[invalid]". *)
Inductive Shown : Set :=
| FloatVal (x : Z)
| IntVal (n : Z)
| CharVal (c : Z)
| Invalid.

(** The lines of the report, in the order printed; rules and blank lines
    are left out and numbers are kept as values, not as formatted text. *)
Inductive OutLine : Set :=
| Warning_only_read (got requested : Z)
| Heading (offset : Z)
| Raw_Bytes (data : bytes)
| Interpretations
| Interp (l : Label) (v : Shown)
| UTF8_String (text : list Z).

Section Interpreter.

(** [str.isprintable] consults the Unicode character database; the
    table for the code points above 127 is a parameter.  Below 128 the
    printable characters are exactly 32..126. *)
Variable unicode_printable : Z -> bool.

Definition char_isprintable (c : Z) : bool :=
  if c <? 128 then (32 <=? c) && (c <=? 126) else unicode_printable c.

Definition isprintable (text : list Z) : bool :=
  forallb char_isprintable text.

(** One guarded interpretation of the 4-byte branch:
    [try: val = unpack(...); print(label, val)  except: print(label, "[invalid]")] *)
Definition attempt (l : Label) (val : Result Shown) : list OutLine :=
  try_except (v <- val ;; Ok [Interp l v]) [Interp l Invalid].

(** One guarded interpretation of the 2-byte branch: [except: pass]. *)
Definition attempt_quiet (l : Label) (val : Result Shown) : list OutLine :=
  try_except (v <- val ;; Ok [Interp l v]) [].

Definition as_float (r : Result Z) : Result Shown := x <- r ;; Ok (FloatVal x).
Definition as_int (r : Result Z) : Result Shown := n <- r ;; Ok (IntVal n).

Definition analyze_offset (content : bytes) (offset byte_count : Z)
  : Result (list OutLine) :=
  data <- seek_read content offset byte_count ;;
  let out :=
    if len data <? byte_count
    then [Warning_only_read (len data) byte_count] else [] in
  let out := out ++ [Heading offset; Raw_Bytes data] in
  out <-
    (if len data =? 4 then
       let out := out ++ [Interpretations] in
       let out := out ++ attempt Float_LE (as_float (struct_unpack_f LittleEndian data)) in
       let out := out ++ attempt Float_BE (as_float (struct_unpack_f BigEndian data)) in
       let out := out ++ attempt Uint32_LE (as_int (struct_unpack_I LittleEndian data)) in
       let out := out ++ attempt Uint32_BE (as_int (struct_unpack_I BigEndian data)) in
       let out := out ++ attempt Int32_LE (as_int (struct_unpack_i LittleEndian data)) in
       let out := out ++ attempt Int32_BE (as_int (struct_unpack_i BigEndian data)) in
       Ok out
     else if len data =? 2 then
       let out := out ++ [Interpretations] in
       let out := out ++ attempt_quiet Uint16_LE (as_int (struct_unpack_H LittleEndian data)) in
       let out := out ++ attempt_quiet Uint16_BE (as_int (struct_unpack_H BigEndian data)) in
       Ok out
     else if len data =? 1 then
       let out := out ++ [Interpretations] in
       d0 <- py_index data 0 ;;
       let out := out ++ [Interp Uint8 (IntVal d0)] in
       v <- struct_unpack_b data ;;
       let out := out ++ [Interp Int8 (IntVal v)] in
       d0 <- py_index data 0 ;;
       Ok (if (32 <=? d0) && (d0 <=? 126)
           then out ++ [Interp ASCII (CharVal d0)] else out)
     else Ok out) ;;
  let out :=
    out ++ try_except
             (text <- utf8_decode data ;;
              Ok (if isprintable text then [UTF8_String text] else []))
             [] in
  Ok out.

End Interpreter.

(** One pass of the scan:
    [for i in range(len(data) - 3): if data[i:i+4] == target_bytes: matches.append((i, tag))] *)
Definition scan_pass (data target_bytes : bytes) (tag : Encoding)
    (matches : list (Z * Encoding)) : list (Z * Encoding) :=
  fold_left
    (fun matches i =>
       if bytes_eqb (py_slice data i (i + 4)) target_bytes
       then matches ++ [(i, tag)] else matches)
    (py_range (len data - 3)) matches.

(** [scan_for_value] on the content of the file; the value is the list
    [matches] the function reports. *)
Definition scan_for_value (data : bytes) (target_value : PyObj)
    (value_type : string) : Result (list (Z * Encoding)) :=
  let matches := [] in
  if String.eqb value_type "float" then
    x <- py_float target_value ;;
    target_bytes <- struct_pack_f LittleEndian x ;;
    let matches := scan_pass data target_bytes float_le matches in
    x <- py_float target_value ;;
    target_bytes <- struct_pack_f BigEndian x ;;
    let matches := scan_pass data target_bytes float_be matches in
    Ok matches
  else if String.eqb value_type "int" then
    n <- py_int target_value ;;
    target_bytes <- struct_pack_I LittleEndian n ;;
    let matches := scan_pass data target_bytes uint32_le matches in
    n <- py_int target_value ;;
    target_bytes <- struct_pack_I BigEndian n ;;
    let matches := scan_pass data target_bytes uint32_be matches in
    Ok matches
  else Ok matches.

(** ** Vocabulary for the statements *)

(** The encoded target of a pass, as the source computes it:
    [struct.pack('<f', float(target_value))] and its three siblings. *)
Definition float_target (o : ByteOrder) (t : PyObj) : Result bytes :=
  x <- py_float t ;; struct_pack_f o x.

Definition int_target (o : ByteOrder) (t : PyObj) : Result bytes :=
  n <- py_int t ;; struct_pack_I o n.

(** The passes of a scan in source order: the tag and the encoded target
    of each.  A target that cannot be encoded has no passes. *)
Definition encoded_passes (value_type : string) (t : PyObj)
  : Result (list (Encoding * bytes)) :=
  if String.eqb value_type "float" then
    a <- float_target LittleEndian t ;;
    b <- float_target BigEndian t ;;
    Ok [(float_le, a); (float_be, b)]
  else if String.eqb value_type "int" then
    a <- int_target LittleEndian t ;;
    b <- int_target BigEndian t ;;
    Ok [(uint32_le, a); (uint32_be, b)]
  else Ok [].

(** A finite double too large for a C float. *)
Definition float32_overflows (x : Z) : bool :=
  is_inf binary32 (convert binary64 binary32 x) && negb (is_inf binary64 x).

(** The offsets at which [target_bytes] occurs in [data]. *)
Definition occurrences (data target_bytes : bytes) : list Z :=
  filter (fun i => bytes_eqb (py_slice data i (i + 4)) target_bytes)
         (py_range (len data - 3)).

Definition tagged (tag : Encoding) (offs : list Z) : list (Z * Encoding) :=
  map (fun i => (i, tag)) offs.

(** The tags of the first (little-endian) pass. *)
Definition little_endian_tag (e : Encoding) : bool :=
  match e with
  | float_le | uint32_le => true
  | float_be | uint32_be => false
  end.

(** The interpretation lines of a report, and their labels. *)
Definition is_interp (l : OutLine) : bool :=
  match l with
  | Interp _ _ => true
  | _ => false
  end.

Definition is_utf8 (l : OutLine) : bool :=
  match l with
  | UTF8_String _ => true
  | _ => false
  end.

Definition interp_lines (out : list OutLine) : list OutLine :=
  filter is_interp out.

Definition labels (out : list OutLine) : list Label :=
  flat_map (fun l => match l with Interp lb _ => [lb] | _ => [] end) out.

(** The labels the width of the window selects. *)
Definition selected (window : bytes) : list Label :=
  if len window =? 4 then
    [Float_LE; Float_BE; Uint32_LE; Uint32_BE; Int32_LE; Int32_BE]
  else if len window =? 2 then [Uint16_LE; Uint16_BE]
  else if len window =? 1 then
    if in_range 32 126 (nth 0 window x00) then [Uint8; Int8; ASCII]
    else [Uint8; Int8]
  else [].

(** The text line of a report for a window, under a printability table. *)
Definition utf8_line (unicode_printable : Z -> bool) (window : bytes)
  : list OutLine :=
  match utf8_decode window with
  | Ok text =>
      if isprintable unicode_printable text then [UTF8_String text] else []
  | Raise _ => []
  end.

Definition float_label (o : ByteOrder) : Label :=
  match o with
  | LittleEndian => Float_LE
  | BigEndian => Float_BE
  end.

(** The lines the three width branches print for a window, in closed
    form: every attempted decoding shown with its value. *)
Definition width_lines (data : bytes) : list OutLine :=
  if len data =? 4 then
    [Interpretations;
     Interp Float_LE (FloatVal (convert binary32 binary64 (uint_of_bytes LittleEndian data)));
     Interp Float_BE (FloatVal (convert binary32 binary64 (uint_of_bytes BigEndian data)));
     Interp Uint32_LE (IntVal (uint_of_bytes LittleEndian data));
     Interp Uint32_BE (IntVal (uint_of_bytes BigEndian data));
     Interp Int32_LE (IntVal (to_signed 32 (uint_of_bytes LittleEndian data)));
     Interp Int32_BE (IntVal (to_signed 32 (uint_of_bytes BigEndian data)))]
  else if len data =? 2 then
    [Interpretations;
     Interp Uint16_LE (IntVal (uint_of_bytes LittleEndian data));
     Interp Uint16_BE (IntVal (uint_of_bytes BigEndian data))]
  else if len data =? 1 then
    [Interpretations;
     Interp Uint8 (IntVal (byte_to_Z (nth 0 data x00)));
     Interp Int8 (IntVal (to_signed 8 (byte_to_Z (nth 0 data x00))))]
    ++ (if in_range 32 126 (nth 0 data x00)
        then [Interp ASCII (CharVal (byte_to_Z (nth 0 data x00)))] else [])
  else [].

(** The short-read warning. *)
Definition warning (data : bytes) (byte_count : Z) : list OutLine :=
  if len data <? byte_count
  then [Warning_only_read (len data) byte_count] else [].

(** ** The rest of the two reports *)

(** One hexadecimal digit, lower case. *)
Definition hex_digit (n : Z) : ascii :=
  ascii_of_N (Z.to_N (if n <? 10 then 48 + n else 87 + n)).

(** [f'{b:02x}'] *)
Definition hex02 (b : byte) : string :=
  String (hex_digit (byte_to_Z b / 16))
         (String (hex_digit (byte_to_Z b mod 16)) EmptyString).

(** [sep.join(parts)] *)
Fixpoint join (sep : string) (parts : list string) : string :=
  match parts with
  | [] => EmptyString
  | [p] => p
  | p :: rest => (p ++ sep ++ join sep rest)%string
  end.

(** [' '.join(f'{b:02x}' for b in data)], the text of the raw-bytes line
    and of the bytes of a match. *)
Definition hex_str (data : bytes) : string := join " " (map hex02 data).

(** The lines [scan_for_value] prints after the scan: the count and one
    line per match with its offset, the four bytes there and the tag, or
    the line "No matches found.". *)
Inductive ScanLine : Set :=
| Found_matches (n : Z)
| Match_at (offset : Z) (hex_bytes : string) (encoding : Encoding)
| No_matches_found.

Definition report_matches (data : bytes) (matches : list (Z * Encoding))
  : list ScanLine :=
  match matches with
  | [] => [No_matches_found]
  | _ :: _ =>
      Found_matches (len matches)
      :: map (fun m =>
                Match_at (fst m)
                         (hex_str (py_slice data (fst m) (fst m + 4)))
                         (snd m))
             matches
  end.

Definition scan_for_value_output (data : bytes) (target_value : PyObj)
    (value_type : string) : Result (list ScanLine) :=
  matches <- scan_for_value data target_value value_type ;;
  Ok (report_matches data matches).

(** The tag and the labels that go with a byte order. *)
Definition uint32_tag (o : ByteOrder) : Encoding :=
  match o with
  | LittleEndian => uint32_le
  | BigEndian => uint32_be
  end.

Definition float_tag (o : ByteOrder) : Encoding :=
  match o with
  | LittleEndian => float_le
  | BigEndian => float_be
  end.

Definition uint32_label (o : ByteOrder) : Label :=
  match o with
  | LittleEndian => Uint32_LE
  | BigEndian => Uint32_BE
  end.

Definition int32_label (o : ByteOrder) : Label :=
  match o with
  | LittleEndian => Int32_LE
  | BigEndian => Int32_BE
  end.

(** The runtime primitives are kept folded during proofs. *)
Arguments convert : simpl never.
Arguments encode : simpl never.
Arguments decode : simpl never.
Arguments struct_pack_f : simpl never.
Arguments struct_pack_I : simpl never.
Arguments bytes_of_uint : simpl never.
Arguments uint_of_bytes : simpl never.
Arguments py_float : simpl never.
Arguments py_int : simpl never.
Arguments py_slice : simpl never.
Arguments py_range : simpl never.
Arguments utf8_decode : simpl never.
Arguments float32_overflows : simpl never.

(** ** Lists, ranges and slices *)

Lemma bytes_eqb_eq (a b : bytes) : bytes_eqb a b = true <-> a = b.
Proof.
  revert b. induction a as [|x a IH]; intros [|y b]; simpl;
    try (split; [discriminate | congruence]); try tauto.
  rewrite andb_true_iff, IH. split.
  - intros [Hxy ->]. apply Byte.byte_dec_bl in Hxy. now subst.
  - intros E. inversion E; subst. split; [apply Byte.byte_dec_lb|]; reflexivity.
Qed.

Lemma len_nonneg {A : Type} (l : list A) : 0 <= len l.
Proof. unfold len. lia. Qed.

Lemma len_app {A : Type} (l1 l2 : list A) : len (l1 ++ l2) = len l1 + len l2.
Proof. unfold len. rewrite length_app. lia. Qed.

Lemma In_py_range (n i : Z) : In i (py_range n) <-> 0 <= i < n.
Proof.
  unfold py_range. rewrite in_map_iff. split.
  - intros (k & <- & Hk). apply in_seq in Hk. lia.
  - intros H. exists (Z.to_nat i). split; [lia|]. apply in_seq. lia.
Qed.

Lemma len_py_range (n : Z) : len (py_range n) = Z.max n 0.
Proof. unfold len, py_range. rewrite length_map, length_seq. lia. Qed.

Lemma seq_sorted (a n : nat) : StronglySorted Z.lt (map Z.of_nat (seq a n)).
Proof.
  revert a. induction n as [|n IH]; intros a; simpl; constructor.
  - apply IH.
  - apply Forall_forall. intros z Hz. apply in_map_iff in Hz.
    destruct Hz as (k & <- & Hk). apply in_seq in Hk. lia.
Qed.

Lemma py_range_sorted (n : Z) : StronglySorted Z.lt (py_range n).
Proof. apply seq_sorted. Qed.

Lemma filter_sorted (f : Z -> bool) (l : list Z) :
  StronglySorted Z.lt l -> StronglySorted Z.lt (filter f l).
Proof.
  induction 1 as [|x l Hl IH Hx]; simpl; [constructor|].
  destruct (f x); [constructor|]; trivial.
  apply Forall_forall. intros y Hy. apply filter_In in Hy.
  rewrite Forall_forall in Hx. now apply Hx.
Qed.

Lemma slice_window {A : Type} (l : list A) (i : Z) :
  0 <= i <= len l - 4 ->
  py_slice l i (i + 4) = firstn 4 (skipn (Z.to_nat i) l)
  /\ length (py_slice l i (i + 4)) = 4%nat.
Proof.
  intros H. unfold py_slice, slice_bound.
  destruct (Z.ltb_spec i 0); [lia|].
  destruct (Z.ltb_spec (i + 4) 0); [lia|].
  replace (Z.to_nat (Z.min (i + 4) (len l) - Z.min i (len l))) with 4%nat by lia.
  replace (Z.min i (len l)) with i by lia.
  split; [reflexivity|].
  rewrite length_firstn, length_skipn. unfold len in H.
  apply Nat.min_l. lia.
Qed.

Lemma slice_placed {A : Type} (pre tb post : list A) :
  length tb = 4%nat ->
  py_slice (pre ++ tb ++ post) (len pre) (len pre + 4) = tb.
Proof.
  intros Htb.
  destruct (slice_window (pre ++ tb ++ post) (len pre)) as [-> _].
  - rewrite !len_app. unfold len. lia.
  - unfold len. rewrite Nat2Z.id, skipn_app, skipn_all, Nat.sub_diag.
    change (skipn 0 (tb ++ post)) with (tb ++ post).
    rewrite app_nil_l, <- Htb, firstn_app, firstn_all, Nat.sub_diag.
    apply app_nil_r.
Qed.

(** ** The scan loop *)

Lemma scan_pass_spec (data tb : bytes) (tag : Encoding) (ms : list (Z * Encoding)) :
  scan_pass data tb tag ms = ms ++ tagged tag (occurrences data tb).
Proof.
  unfold scan_pass, occurrences, tagged.
  generalize (py_range (len data - 3)) as l. intros l. revert ms.
  induction l as [|i l IH]; intros ms; simpl.
  - now rewrite app_nil_r.
  - destruct (bytes_eqb (py_slice data i (i + 4)) tb); simpl.
    + rewrite IH, <- app_assoc. reflexivity.
    + apply IH.
Qed.

Lemma In_occurrences (data tb : bytes) (i : Z) :
  In i (occurrences data tb)
  <-> 0 <= i <= len data - 4 /\ py_slice data i (i + 4) = tb.
Proof.
  unfold occurrences. rewrite filter_In, In_py_range, bytes_eqb_eq.
  intuition lia.
Qed.

Lemma occurrences_sorted (data tb : bytes) :
  StronglySorted Z.lt (occurrences data tb).
Proof. apply filter_sorted, py_range_sorted. Qed.

Lemma occurrences_short (data tb : bytes) :
  len data < 4 -> occurrences data tb = [].
Proof.
  intros H. unfold occurrences, py_range.
  replace (Z.to_nat (len data - 3)) with 0%nat by lia. reflexivity.
Qed.

Lemma In_tagged (tag e : Encoding) (offs : list Z) (i : Z) :
  In (i, e) (tagged tag offs) <-> e = tag /\ In i offs.
Proof.
  unfold tagged. rewrite in_map_iff. split.
  - intros (j & E & Hj). inversion E; subst. auto.
  - intros [-> Hi]. now exists i.
Qed.

Lemma fst_tagged (tag : Encoding) (offs : list Z) :
  map fst (tagged tag offs) = offs.
Proof.
  unfold tagged. rewrite map_map. simpl. apply map_id.
Qed.

Lemma snd_tagged (tag : Encoding) (offs : list Z) :
  Forall (fun m => snd m = tag) (tagged tag offs).
Proof.
  apply Forall_forall. intros [i e] H. apply In_tagged in H. simpl. tauto.
Qed.

(** In a strictly ascending list an offset occurs once. *)
Lemma once_in_sorted (tag : Encoding) (offs : list Z) (i : Z) :
  StronglySorted Z.lt offs -> In i offs ->
  filter (fun m => fst m =? i) (tagged tag offs) = [(i, tag)].
Proof.
  induction 1 as [|x l Hl IH Hx]; simpl; [tauto|].
  rewrite Forall_forall in Hx. intros [-> | Hi].
  - rewrite Z.eqb_refl. f_equal.
    clear IH. induction l as [|y l IHl]; simpl; [reflexivity|].
    assert (i < y) by (apply Hx; now left).
    destruct (Z.eqb_spec y i); [lia|].
    apply IHl.
    + now inversion Hl.
    + intros z Hz. apply Hx. now right.
  - assert (x < i) by now apply Hx.
    destruct (Z.eqb_spec x i); [lia|]. now apply IH.
Qed.

(** ** Encoding the target *)

Lemma length_le_bytes (n : nat) (v : Z) : length (le_bytes n v) = n.
Proof. revert v. induction n; intros v; simpl; [|rewrite IHn]; reflexivity. Qed.

Lemma length_bytes_of_uint (o : ByteOrder) (n : nat) (v : Z) :
  length (bytes_of_uint o n v) = n.
Proof.
  destruct o; unfold bytes_of_uint; simpl;
    [|rewrite length_rev]; apply length_le_bytes.
Qed.

Lemma pack_f_cases (o : ByteOrder) (x : Z) :
  struct_pack_f o x
  = if float32_overflows x then Raise OverflowError
    else Ok (bytes_of_uint o 4 (convert binary64 binary32 x)).
Proof. reflexivity. Qed.

Lemma pack_I_cases (o : ByteOrder) (n : Z) :
  (0 <= n <= 4294967295 /\ struct_pack_I o n = Ok (bytes_of_uint o 4 n))
  \/ (~ 0 <= n <= 4294967295 /\ struct_pack_I o n = Raise struct_error).
Proof.
  unfold struct_pack_I.
  destruct (Z.leb_spec 0 n); destruct (Z.leb_spec n 4294967295); simpl;
    solve [left; split; [lia | reflexivity] | right; split; [lia | reflexivity]].
Qed.

(** The big-endian target is the little-endian one reversed, and is
    encodable exactly when the little-endian one is. *)
Lemma float_target_be (t : PyObj) :
  float_target BigEndian t
  = (tb <- float_target LittleEndian t ;; Ok (rev tb)).
Proof.
  unfold float_target. destruct (py_float t) as [x|e]; cbn [bind]; [|reflexivity].
  rewrite (pack_f_cases BigEndian), (pack_f_cases LittleEndian).
  destruct (float32_overflows x); reflexivity.
Qed.

Lemma int_target_be (t : PyObj) :
  int_target BigEndian t
  = (tb <- int_target LittleEndian t ;; Ok (rev tb)).
Proof.
  unfold int_target. destruct (py_int t) as [n|e]; cbn [bind]; [|reflexivity].
  unfold struct_pack_I.
  destruct ((0 <=? n) && (n <=? 4294967295)); reflexivity.
Qed.

Lemma float_target_length (o : ByteOrder) (t : PyObj) (tb : bytes) :
  float_target o t = Ok tb -> length tb = 4%nat.
Proof.
  unfold float_target. destruct (py_float t) as [x|e]; cbn [bind]; [|discriminate].
  rewrite pack_f_cases. destruct (float32_overflows x); [discriminate|].
  intros E. inversion E. apply length_bytes_of_uint.
Qed.

Lemma int_target_length (o : ByteOrder) (t : PyObj) (tb : bytes) :
  int_target o t = Ok tb -> length tb = 4%nat.
Proof.
  unfold int_target. destruct (py_int t) as [n|e]; cbn [bind]; [|discriminate].
  destruct (pack_I_cases o n) as [[_ ->] | [_ ->]]; [|discriminate].
  intros E. inversion E. apply length_bytes_of_uint.
Qed.

Lemma encoded_passes_cases (value_type : string) (t : PyObj)
    (ps : list (Encoding * bytes)) :
  encoded_passes value_type t = Ok ps ->
  (exists tb, value_type = "float"%string
              /\ float_target LittleEndian t = Ok tb
              /\ ps = [(float_le, tb); (float_be, rev tb)])
  \/ (exists tb, value_type = "int"%string
                 /\ int_target LittleEndian t = Ok tb
                 /\ ps = [(uint32_le, tb); (uint32_be, rev tb)])
  \/ (value_type <> "float"%string /\ value_type <> "int"%string /\ ps = []).
Proof.
  unfold encoded_passes.
  destruct (String.eqb_spec value_type "float") as [->|Hf].
  - rewrite float_target_be.
    destruct (float_target LittleEndian t) as [tb|e]; cbn [bind]; [|discriminate].
    intros E. inversion E. left. now exists tb.
  - destruct (String.eqb_spec value_type "int") as [->|Hi].
    + rewrite int_target_be.
      destruct (int_target LittleEndian t) as [tb|e]; cbn [bind]; [|discriminate].
      intros E. inversion E. right. left. now exists tb.
    + intros E. inversion E. right. right. auto.
Qed.

Lemma encoded_passes_length (value_type : string) (t : PyObj)
    (ps : list (Encoding * bytes)) (tag : Encoding) (tb : bytes) :
  encoded_passes value_type t = Ok ps -> In (tag, tb) ps -> length tb = 4%nat.
Proof.
  intros H Hin.
  destruct (encoded_passes_cases _ _ _ H)
    as [(b & _ & Hb & ->) | [(b & _ & Hb & ->) | (_ & _ & ->)]];
    [apply float_target_length in Hb | apply int_target_length in Hb | destruct Hin];
    destruct Hin as [E | [E | []]]; inversion E; subst;
    rewrite ?length_rev; assumption.
Qed.

(** The function is its passes, run in order on the same buffer. *)
Lemma scan_for_value_spec (data : bytes) (t : PyObj) (value_type : string) :
  scan_for_value data t value_type
  = (ps <- encoded_passes value_type t ;;
     Ok (flat_map (fun p => scan_pass data (snd p) (fst p) []) ps)).
Proof.
  unfold scan_for_value, encoded_passes, float_target, int_target.
  destruct (String.eqb value_type "float").
  - destruct (py_float t) as [x|e]; cbn [bind]; [|reflexivity].
    rewrite (pack_f_cases LittleEndian), (pack_f_cases BigEndian).
    destruct (float32_overflows x); cbn [bind]; [reflexivity|].
    cbn [flat_map fst snd]. rewrite app_nil_r.
    rewrite (scan_pass_spec _ _ float_be (scan_pass _ _ _ _)).
    rewrite (scan_pass_spec _ _ float_be []). reflexivity.
  - destruct (String.eqb value_type "int"); [|reflexivity].
    destruct (py_int t) as [n|e]; cbn [bind]; [|reflexivity].
    unfold struct_pack_I.
    destruct ((0 <=? n) && (n <=? 4294967295)); cbn [bind]; [|reflexivity].
    cbn [flat_map fst snd]. rewrite app_nil_r.
    rewrite (scan_pass_spec _ _ uint32_be (scan_pass _ _ _ _)).
    rewrite (scan_pass_spec _ _ uint32_be []). reflexivity.
Qed.

Lemma In_scan_pass (data tb : bytes) (tag e : Encoding) (i : Z) :
  In (i, e) (scan_pass data tb tag [])
  <-> e = tag /\ 0 <= i <= len data - 4 /\ py_slice data i (i + 4) = tb.
Proof.
  rewrite scan_pass_spec, app_nil_l, In_tagged, In_occurrences. tauto.
Qed.

Lemma scan_pass_short (data tb : bytes) (tag : Encoding) :
  len data < 4 -> scan_pass data tb tag [] = [].
Proof.
  intros H. rewrite scan_pass_spec, occurrences_short by assumption.
  reflexivity.
Qed.

(** ** The pattern scanner *)

(** C1.  For a target that encodes, each pass of the scan visits the
    positions 0 .. len(data) - 4, which are max(len(data) - 3, 0) many;
    at each one it compares the four bytes from that position with the
    encoded target, and the pass holds (i, tag) exactly for the positions
    where the bytes are equal.  On a buffer of fewer than 4 bytes the
    scan returns the empty list. *)
Theorem scan_exhaustive (data : bytes) (t : PyObj) (value_type : string)
    (ps : list (Encoding * bytes)) :
  encoded_passes value_type t = Ok ps ->
  len (py_range (len data - 3)) = Z.max (len data - 3) 0
  /\ (forall i, In i (py_range (len data - 3)) <-> 0 <= i <= len data - 4)
  /\ (forall i, 0 <= i <= len data - 4 ->
        py_slice data i (i + 4) = firstn 4 (skipn (Z.to_nat i) data)
        /\ length (py_slice data i (i + 4)) = 4%nat)
  /\ scan_for_value data t value_type
     = Ok (flat_map (fun p => scan_pass data (snd p) (fst p) []) ps)
  /\ (forall tag tb, In (tag, tb) ps ->
        length tb = 4%nat
        /\ forall i e, In (i, e) (scan_pass data tb tag [])
                       <-> e = tag /\ 0 <= i <= len data - 4
                           /\ py_slice data i (i + 4) = tb)
  /\ (len data < 4 -> scan_for_value data t value_type = Ok []).
Proof.
  intros H.
  split; [apply len_py_range|].
  split; [intros i; rewrite In_py_range; lia|].
  split; [intros i Hi; now apply slice_window|].
  split; [rewrite scan_for_value_spec, H; reflexivity|].
  split.
  - intros tag tb Hin. split.
    + eapply encoded_passes_length; eassumption.
    + intros i e. apply In_scan_pass.
  - intros Hshort. rewrite scan_for_value_spec, H. cbn [bind]. f_equal.
    clear H. induction ps as [|p ps IH]; simpl; [reflexivity|].
    rewrite scan_pass_short, IH by assumption. reflexivity.
Qed.

Lemma scan_exhaustive_witness :
  encoded_passes "float" (PyStr "60.0")
  = Ok [(float_le, [x00; x00; x70; x42]); (float_be, [x42; x70; x00; x00])]
  /\ scan_for_value [x00; x00; x70] (PyStr "60.0") "float" = Ok [].
Proof.
  assert (H : encoded_passes "float" (PyStr "60.0")
              = Ok [(float_le, [x00; x00; x70; x42]);
                    (float_be, [x42; x70; x00; x00])])
    by (vm_compute; reflexivity).
  split; [exact H|].
  destruct (scan_exhaustive [x00; x00; x70] _ _ _ H) as (_ & _ & _ & _ & _ & Hs).
  apply Hs. vm_compute. reflexivity.
Defined.

Lemma scan_pass_tags (data tb : bytes) (tag : Encoding) :
  Forall (fun m => snd m = tag) (scan_pass data tb tag []).
Proof. rewrite scan_pass_spec. apply snd_tagged. Qed.

Lemma scan_pass_sorted (data tb : bytes) (tag : Encoding) :
  StronglySorted Z.lt (map fst (scan_pass data tb tag [])).
Proof.
  rewrite scan_pass_spec, app_nil_l, fst_tagged. apply occurrences_sorted.
Qed.

(** C3.  For a target that encodes, the result is the matches of pass 1
    (little-endian tag) in strictly ascending offset order followed by
    the matches of pass 2 (big-endian tag) in strictly ascending offset
    order. *)
Theorem scan_order (data : bytes) (t : PyObj) (value_type : string)
    (ps : list (Encoding * bytes)) :
  encoded_passes value_type t = Ok ps ->
  exists ms1 ms2,
    scan_for_value data t value_type = Ok (ms1 ++ ms2)
    /\ ms1 = flat_map (fun p => scan_pass data (snd p) (fst p) []) (firstn 1 ps)
    /\ ms2 = flat_map (fun p => scan_pass data (snd p) (fst p) []) (skipn 1 ps)
    /\ Forall (fun m => little_endian_tag (snd m) = true) ms1
    /\ Forall (fun m => little_endian_tag (snd m) = false) ms2
    /\ StronglySorted Z.lt (map fst ms1)
    /\ StronglySorted Z.lt (map fst ms2).
Proof.
  intros H. do 2 eexists.
  split; [|split; [reflexivity|split; [reflexivity|]]].
  - rewrite scan_for_value_spec, H. cbn [bind].
    rewrite <- flat_map_app, firstn_skipn. reflexivity.
  - destruct (encoded_passes_cases _ _ _ H)
      as [(b & _ & _ & ->) | [(b & _ & _ & ->) | (_ & _ & ->)]];
      cbn [firstn skipn flat_map fst snd]; rewrite ?app_nil_r;
      repeat split;
      try apply scan_pass_sorted; try constructor;
      try (eapply Forall_impl; [|apply scan_pass_tags];
           intros m ->; reflexivity).
Qed.

Lemma scan_order_witness :
  encoded_passes "int" (PyStr "1")
  = Ok [(uint32_le, [x01; x00; x00; x00]); (uint32_be, [x00; x00; x00; x01])]
  /\ scan_for_value [x00; x00; x00; x01; x00; x00; x00; x01; x00; x00; x00]
                    (PyStr "1") "int"
     = Ok [(3, uint32_le); (7, uint32_le); (0, uint32_be); (4, uint32_be)].
Proof.
  assert (H : encoded_passes "int" (PyStr "1")
              = Ok [(uint32_le, [x01; x00; x00; x00]);
                    (uint32_be, [x00; x00; x00; x01])])
    by (vm_compute; reflexivity).
  split; [exact H|].
  destruct (scan_order [x00; x00; x00; x01; x00; x00; x00; x01; x00; x00; x00]
                       _ _ _ H) as (ms1 & ms2 & -> & -> & -> & _).
  vm_compute. reflexivity.
Defined.

(** The passes of a number given as a value: every uint32 and every
    double that fits a C float encodes. *)
Lemma encoded_passes_uint32 (n : Z) :
  0 <= n <= 4294967295 ->
  encoded_passes "int" (PyInt n)
  = Ok [(uint32_le, le_bytes 4 n); (uint32_be, rev (le_bytes 4 n))].
Proof.
  intros Hn. unfold encoded_passes, int_target, py_int.
  change (String.eqb "int" "float") with false.
  change (String.eqb "int" "int") with true. cbn [bind].
  destruct (pack_I_cases LittleEndian n) as [[_ ->] | [H _]]; [|tauto].
  destruct (pack_I_cases BigEndian n) as [[_ ->] | [H _]]; [|tauto].
  reflexivity.
Qed.

Lemma encoded_passes_float32 (x : Z) :
  float32_overflows x = false ->
  encoded_passes "float" (PyFloat x)
  = Ok [(float_le, le_bytes 4 (convert binary64 binary32 x));
        (float_be, rev (le_bytes 4 (convert binary64 binary32 x)))].
Proof.
  intros Hx. unfold encoded_passes, float_target, py_float.
  change (String.eqb "float" "float") with true. cbn [bind].
  rewrite (pack_f_cases LittleEndian), (pack_f_cases BigEndian), Hx.
  reflexivity.
Qed.

(** The largest double that still rounds to the largest C float, and the
    next double, which does not. *)
Example overflow_threshold :
  float32_overflows 5183643170835005439 = false
  /\ float32_overflows 5183643170835005440 = true
  /\ float_from_string "3.4028235677973362e38" = Ok 5183643170835005439
  /\ float_from_string "3.4028235677973366e38" = Ok 5183643170835005440.
Proof. repeat split; vm_compute; reflexivity. Qed.

(** C5.  For a target that encodes, placing the bytes of the first
    (little-endian) pass at offset [len pre] of a buffer makes the scan
    report that offset with the little-endian tag of the class. *)
Theorem scan_round_trip (t : PyObj) (value_type : string) (tag : Encoding)
    (tb : bytes) (rest : list (Encoding * bytes)) (pre post : bytes) :
  encoded_passes value_type t = Ok ((tag, tb) :: rest) ->
  exists ms,
    scan_for_value (pre ++ tb ++ post) t value_type = Ok ms
    /\ In (len pre, tag) ms
    /\ (value_type = "float"%string ->
        tag = float_le /\ float_target LittleEndian t = Ok tb)
    /\ (value_type = "int"%string ->
        tag = uint32_le /\ int_target LittleEndian t = Ok tb).
Proof.
  intros H. eexists. split; [rewrite scan_for_value_spec, H; reflexivity|].
  split.
  - cbn [flat_map fst snd]. apply in_or_app. left. apply In_scan_pass.
    assert (Hlen : length tb = 4%nat)
      by (eapply encoded_passes_length; [eassumption | now left]).
    split; [reflexivity|]. split.
    + rewrite !len_app. unfold len. lia.
    + now apply slice_placed.
  - destruct (encoded_passes_cases _ _ _ H)
      as [(b & -> & Hb & E) | [(b & -> & Hb & E) | (_ & _ & E)]];
      inversion E; subst; split; intros Hvt; try discriminate; auto.
Qed.

Lemma scan_round_trip_witness :
  encoded_passes "int" (PyInt 305419896)
  = Ok [(uint32_le, [x78; x56; x34; x12]); (uint32_be, [x12; x34; x56; x78])]
  /\ exists ms,
       scan_for_value ([xaa; xbb; xcc] ++ [x78; x56; x34; x12] ++ [xdd])
                      (PyInt 305419896) "int" = Ok ms
       /\ In (3, uint32_le) ms.
Proof.
  assert (H : encoded_passes "int" (PyInt 305419896)
              = Ok [(uint32_le, [x78; x56; x34; x12]);
                    (uint32_be, [x12; x34; x56; x78])])
    by (vm_compute; reflexivity).
  split; [exact H|].
  destruct (scan_round_trip _ _ _ _ _ [xaa; xbb; xcc] [xdd] H)
    as (ms & Hs & Hin & _).
  exists ms. split; assumption.
Defined.

(** The float 60.0 placed at offset 1, given as a number and as text. *)
Example scan_round_trip_float :
  py_float (PyStr "60.0") = Ok 4633641066610819072
  /\ struct_pack_f LittleEndian 4633641066610819072 = Ok [x00; x00; x70; x42]
  /\ scan_for_value ([xaa] ++ [x00; x00; x70; x42] ++ [xbb; xcc])
                    (PyFloat 4633641066610819072) "float"
     = Ok [(1, float_le)]
  /\ scan_for_value ([xaa] ++ [x00; x00; x70; x42] ++ [xbb; xcc])
                    (PyStr "60.0") "float"
     = Ok [(1, float_le)].
Proof. repeat split; vm_compute; reflexivity. Qed.

Lemma not_in_tagged (tag : Encoding) (offs : list Z) (i : Z) :
  ~ In i offs -> filter (fun m => fst m =? i) (tagged tag offs) = [].
Proof.
  induction offs as [|x l IH]; simpl; [reflexivity|]. intros H.
  destruct (Z.eqb_spec x i); [tauto|]. apply IH. tauto.
Qed.

(** C9.  When the two passes of a target have the same bytes, every
    offset where those bytes occur is reported exactly twice, first with
    the little-endian tag and then with the big-endian tag, and no other
    offset is reported. *)
Theorem scan_same_bytes_twice (data : bytes) (t : PyObj) (value_type : string)
    (tag1 tag2 : Encoding) (tb : bytes) :
  encoded_passes value_type t = Ok [(tag1, tb); (tag2, tb)] ->
  exists ms,
    scan_for_value data t value_type = Ok ms
    /\ ms = scan_pass data tb tag1 [] ++ scan_pass data tb tag2 []
    /\ little_endian_tag tag1 = true
    /\ little_endian_tag tag2 = false
    /\ (forall i, 0 <= i <= len data - 4 -> py_slice data i (i + 4) = tb ->
          filter (fun m => fst m =? i) ms = [(i, tag1); (i, tag2)])
    /\ (forall i, ~ (0 <= i <= len data - 4 /\ py_slice data i (i + 4) = tb) ->
          filter (fun m => fst m =? i) ms = []).
Proof.
  intros H. eexists. split; [rewrite scan_for_value_spec, H; reflexivity|].
  cbn [flat_map fst snd]. rewrite app_nil_r.
  split; [reflexivity|].
  split; [|split].
  - destruct (encoded_passes_cases _ _ _ H)
      as [(b & _ & _ & E) | [(b & _ & _ & E) | (_ & _ & E)]];
      inversion E; reflexivity.
  - destruct (encoded_passes_cases _ _ _ H)
      as [(b & _ & _ & E) | [(b & _ & _ & E) | (_ & _ & E)]];
      inversion E; reflexivity.
  - rewrite !scan_pass_spec, !app_nil_l. split.
    + intros i Hi Hs.
      assert (Hin : In i (occurrences data tb)) by (apply In_occurrences; auto).
      rewrite filter_app, !once_in_sorted
        by (apply occurrences_sorted || exact Hin).
      reflexivity.
    + intros i Hn. rewrite <- In_occurrences in Hn.
      rewrite filter_app, !not_in_tagged by exact Hn. reflexivity.
Qed.

Lemma scan_same_bytes_twice_witness :
  encoded_passes "int" (PyInt 0)
  = Ok [(uint32_le, [x00; x00; x00; x00]); (uint32_be, [x00; x00; x00; x00])]
  /\ scan_for_value [x00; x00; x00; x00; x00; x07] (PyInt 0) "int"
     = Ok [(0, uint32_le); (1, uint32_le); (0, uint32_be); (1, uint32_be)].
Proof.
  assert (H : encoded_passes "int" (PyInt 0)
              = Ok [(uint32_le, [x00; x00; x00; x00]);
                    (uint32_be, [x00; x00; x00; x00])])
    by (vm_compute; reflexivity).
  split; [exact H|].
  destruct (scan_same_bytes_twice [x00; x00; x00; x00; x00; x07] _ _ _ _ _ H)
    as (ms & -> & -> & _).
  vm_compute. reflexivity.
Defined.

(** ** Bit fields of the two formats *)

Ltac fields_by_arith s :=
  split; [|split];
  [ destruct s; [apply Z.testbit_true | apply Z.testbit_false];
    try lia; Z.div_mod_to_equations; lia
  | destruct s; Z.div_mod_to_equations; lia
  | destruct s; Z.div_mod_to_equations; lia ].

Lemma fields64 (s : bool) (e m : Z) :
  0 <= e < 2048 -> 0 <= m < 4503599627370496 ->
  let b := sign_bit binary64 s + Z.shiftl e 52 + m in
  sign_field binary64 b = s
  /\ expo_field binary64 b = e
  /\ mant_field binary64 b = m.
Proof.
  intros He Hm b. subst b.
  unfold sign_field, expo_field, mant_field, sign_bit.
  cbn [mant_bits expo_bits binary64].
  rewrite !Z.land_ones, Z.shiftr_div_pow2, Z.shiftl_mul_pow2 by lia.
  change (52 + 11) with 63.
  change (2 ^ 52) with 4503599627370496.
  change (2 ^ 63) with 9223372036854775808.
  change (2 ^ 11) with 2048.
  fields_by_arith s.
Qed.

Lemma fields32 (s : bool) (e m : Z) :
  0 <= e < 256 -> 0 <= m < 8388608 ->
  let b := sign_bit binary32 s + Z.shiftl e 23 + m in
  sign_field binary32 b = s
  /\ expo_field binary32 b = e
  /\ mant_field binary32 b = m.
Proof.
  intros He Hm b. subst b.
  unfold sign_field, expo_field, mant_field, sign_bit.
  cbn [mant_bits expo_bits binary32].
  rewrite !Z.land_ones, Z.shiftr_div_pow2, Z.shiftl_mul_pow2 by lia.
  change (23 + 8) with 31.
  change (2 ^ 23) with 8388608.
  change (2 ^ 31) with 2147483648.
  change (2 ^ 8) with 256.
  fields_by_arith s.
Qed.

(** A payload with the quiet bit set, cut to the width of the field, is
    not zero. *)
Lemma quiet_payload (f : format) (q : Z) :
  0 < mant_bits f ->
  0 < Z.land (Z.lor (quiet_bit f) q) (Z.ones (mant_bits f)) < 2 ^ mant_bits f.
Proof.
  intros Hw. set (p := Z.land _ _).
  assert (Hb : Z.testbit p (mant_bits f - 1) = true).
  { unfold p, quiet_bit.
    rewrite Z.land_spec, Z.lor_spec, Z.pow2_bits_true, Z.ones_spec_low by lia.
    reflexivity. }
  assert (Hr : 0 <= p < 2 ^ mant_bits f).
  { unfold p. rewrite Z.land_ones by lia. apply Z.mod_pos_bound. lia. }
  split; [|lia].
  destruct (Z.eq_dec p 0) as [E|]; [|lia].
  rewrite E, Z.bits_0 in Hb. discriminate.
Qed.

Lemma decode_encode_inf64 (s : bool) :
  decode binary64 (encode binary64 (Inf s)) = Inf s.
Proof. destruct s; reflexivity. Qed.

Lemma decode_encode_inf32 (s : bool) :
  decode binary32 (encode binary32 (Inf s)) = Inf s.
Proof. destruct s; reflexivity. Qed.

Lemma decode_encode_zero32 (s : bool) :
  decode binary32 (encode binary32 (Zero s)) = Zero s.
Proof. destruct s; reflexivity. Qed.

Lemma decode_encode_nan64 (s : bool) (q : Z) :
  exists p, decode binary64 (encode binary64 (NaN s (Z.lor (quiet_bit binary64) q)))
            = NaN s p.
Proof.
  pose proof (quiet_payload binary64 q eq_refl) as Hp.
  set (p := Z.land _ _) in Hp. exists p.
  change (2 ^ mant_bits binary64) with 4503599627370496 in Hp.
  destruct (fields64 s 2047 p) as (Hs & He & Hm); [lia | lia |].
  unfold encode, decode. fold p.
  change (Z.shiftl (Z.ones (expo_bits binary64)) (mant_bits binary64))
    with (Z.shiftl 2047 52).
  rewrite Hs, He, Hm. change (Z.ones (expo_bits binary64)) with 2047.
  rewrite Z.eqb_refl. destruct (Z.eqb_spec p 0); [lia | reflexivity].
Qed.

Lemma decode_encode_nan32 (s : bool) (q : Z) :
  exists p, decode binary32 (encode binary32 (NaN s (Z.lor (quiet_bit binary32) q)))
            = NaN s p.
Proof.
  pose proof (quiet_payload binary32 q eq_refl) as Hp.
  set (p := Z.land _ _) in Hp. exists p.
  change (2 ^ mant_bits binary32) with 8388608 in Hp.
  destruct (fields32 s 255 p) as (Hs & He & Hm); [lia | lia |].
  unfold encode, decode. fold p.
  change (Z.shiftl (Z.ones (expo_bits binary32)) (mant_bits binary32))
    with (Z.shiftl 255 23).
  rewrite Hs, He, Hm. change (Z.ones (expo_bits binary32)) with 255.
  rewrite Z.eqb_refl. destruct (Z.eqb_spec p 0); [lia | reflexivity].
Qed.

(** Widening keeps the class of the two special kinds of pattern. *)
Lemma widen_inf (b : Z) :
  is_inf binary32 b = true ->
  is_inf binary64 (convert binary32 binary64 b) = true.
Proof.
  unfold is_inf at 1, convert. destruct (decode binary32 b); try discriminate.
  intros _. unfold is_inf. now rewrite decode_encode_inf64.
Qed.

Lemma widen_nan (b : Z) :
  is_nan binary32 b = true ->
  is_nan binary64 (convert binary32 binary64 b) = true.
Proof.
  unfold is_nan at 1, convert. destruct (decode binary32 b); try discriminate.
  intros _. unfold is_nan.
  destruct (decode_encode_nan64 s
              (Z.shiftl payload (mant_bits binary64 - mant_bits binary32)))
    as (p & ->).
  reflexivity.
Qed.

(** Only a finite, non-zero double can be too large for a C float. *)
Lemma overflow_only_finite (x : Z) :
  float32_overflows x = true ->
  exists s m e, decode binary64 x = Finite s m e.
Proof.
  unfold float32_overflows, is_inf, convert.
  destruct (decode binary64 x) as [s|s|s p|s m e].
  - rewrite decode_encode_zero32. discriminate.
  - rewrite andb_false_r. discriminate.
  - destruct (decode_encode_nan32 s
                (Z.shiftl p (mant_bits binary32 - mant_bits binary64)))
      as (p' & ->).
    discriminate.
  - intros _. now exists s, m, e.
Qed.

(** ** When the scan aborts *)

(** C4, as the code has it.  The scan raises exactly when the first
    target cannot be encoded: the conversion [float()] / [int()] raises,
    or the integer is outside 0 .. 4294967295, or the float is finite and
    becomes an infinity as a C float.  Whether it raises does not depend
    on the buffer, so the exception precedes every comparison, and a
    raised result carries no matches.  With any other value type nothing
    is scanned and nothing is raised. *)
Theorem scan_abort_iff (data : bytes) (t : PyObj) :
  (forall e, scan_for_value data t "float" = Raise e
             <-> float_target LittleEndian t = Raise e)
  /\ (raises (scan_for_value data t "float") = true
      <-> raises (py_float t) = true
          \/ exists x, py_float t = Ok x /\ float32_overflows x = true)
  /\ (forall x, float32_overflows x = true ->
                exists s m e, decode binary64 x = Finite s m e)
  /\ (forall e, scan_for_value data t "int" = Raise e
                <-> int_target LittleEndian t = Raise e)
  /\ (raises (scan_for_value data t "int") = true
      <-> raises (py_int t) = true
          \/ exists n, py_int t = Ok n /\ ~ 0 <= n <= 4294967295)
  /\ (forall value_type e,
        scan_for_value data t value_type = Raise e
        <-> scan_for_value [] t value_type = Raise e)
  /\ (forall value_type,
        value_type <> "float"%string -> value_type <> "int"%string ->
        scan_for_value data t value_type = Ok []).
Proof.
  split; [|split; [|split; [|split; [|split; [|split]]]]].
  - intros e. rewrite scan_for_value_spec. unfold encoded_passes.
    rewrite String.eqb_refl, float_target_be.
    destruct (float_target LittleEndian t); cbn [bind];
      split; congruence.
  - rewrite scan_for_value_spec. unfold encoded_passes.
    rewrite String.eqb_refl, float_target_be. unfold float_target.
    destruct (py_float t) as [x|e]; cbn [bind raises].
    + rewrite pack_f_cases.
      destruct (float32_overflows x) eqn:Hov; cbn [bind raises]; split.
      * intros _. right. now exists x.
      * reflexivity.
      * discriminate.
      * intros [Hd | (y & Hy & Hy')]; [discriminate|].
        inversion Hy; subst. congruence.
    + split; [now left | reflexivity].
  - apply overflow_only_finite.
  - intros e. rewrite scan_for_value_spec. unfold encoded_passes.
    change (String.eqb "int" "float") with false. cbv iota.
    rewrite String.eqb_refl, int_target_be.
    destruct (int_target LittleEndian t); cbn [bind];
      split; congruence.
  - rewrite scan_for_value_spec. unfold encoded_passes.
    change (String.eqb "int" "float") with false. cbv iota.
    rewrite String.eqb_refl, int_target_be. unfold int_target.
    destruct (py_int t) as [n|e]; cbn [bind raises].
    + destruct (pack_I_cases LittleEndian n) as [[Hn ->] | [Hn ->]];
        cbn [bind raises]; split.
      * discriminate.
      * intros [Hd | (y & Hy & Hy')]; [discriminate|].
        inversion Hy; subst. tauto.
      * intros _. right. now exists n.
      * reflexivity.
    + split; [now left | reflexivity].
  - intros value_type e. rewrite !scan_for_value_spec.
    destruct (encoded_passes value_type t); cbn [bind]; split; congruence.
  - intros value_type Hf Hi. unfold scan_for_value.
    destruct (String.eqb_spec value_type "float"); [contradiction|].
    destruct (String.eqb_spec value_type "int"); [contradiction|].
    reflexivity.
Qed.

(** The target "1e39" with class float: [float()] parses it, and the scan
    raises [OverflowError] all the same. *)
Lemma parseable_float_aborts :
  raises (py_float (PyStr "1e39")) = false
  /\ scan_for_value [] (PyStr "1e39") "float" = Raise OverflowError
  /\ ~ (raises (scan_for_value [] (PyStr "1e39") "float") = true
        <-> raises (py_float (PyStr "1e39")) = true).
Proof.
  split; [vm_compute; reflexivity|].
  split; [vm_compute; reflexivity|].
  intros [H _].
  assert (E : raises (scan_for_value [] (PyStr "1e39") "float") = true)
    by (vm_compute; reflexivity).
  apply H in E. vm_compute in E. discriminate.
Qed.

(** ** The offset interpreter *)

Lemma utf8_tail (P : Z -> bool) (data : bytes) :
  try_except
    (text <- utf8_decode data ;;
     Ok (if isprintable P text then [UTF8_String text] else []))
    []
  = utf8_line P data.
Proof. unfold utf8_line. destruct (utf8_decode data); reflexivity. Qed.

Lemma len_one (data : bytes) : len data = 1 -> exists b, data = [b].
Proof.
  destruct data as [|b [|c data]]; unfold len; cbn [length]; try lia.
  intros _. now exists b.
Qed.

(** The report of [analyze_offset] once the window is read: the warning,
    the heading and raw bytes, the lines of the width branch and the text
    line.  No branch raises and no guarded decoding takes its handler. *)
Lemma analyze_offset_spec (P : Z -> bool) (content : bytes)
    (offset byte_count : Z) (data : bytes) :
  seek_read content offset byte_count = Ok data ->
  analyze_offset P content offset byte_count
  = Ok (warning data byte_count ++ [Heading offset; Raw_Bytes data]
        ++ width_lines data ++ utf8_line P data).
Proof.
  intros H. unfold analyze_offset. rewrite H. cbn [bind].
  rewrite utf8_tail. fold (warning data byte_count). unfold width_lines.
  destruct (Z.eqb_spec (len data) 4) as [H4|H4].
  - unfold attempt, as_float, as_int, struct_unpack_f, struct_unpack_I,
      struct_unpack_i, require_size.
    rewrite (proj2 (Z.eqb_eq _ _) H4). cbn [bind try_except].
    rewrite <- !app_assoc. reflexivity.
  - destruct (Z.eqb_spec (len data) 2) as [H2|H2].
    + unfold attempt_quiet, as_int, struct_unpack_H, require_size.
      rewrite (proj2 (Z.eqb_eq _ _) H2). cbn [bind try_except].
      rewrite <- !app_assoc. reflexivity.
    + destruct (Z.eqb_spec (len data) 1) as [H1|H1].
      * destruct (len_one data H1) as (b & ->).
        unfold py_index, struct_unpack_b, require_size.
        cbn [Z.ltb Z.compare Z.to_nat nth_error nth bind].
        change (len [b] =? 1) with true. cbn [bind].
        change (uint_of_bytes LittleEndian [b]) with (byte_to_Z b + 256 * 0).
        rewrite Z.mul_0_r, Z.add_0_r. unfold in_range.
        destruct ((32 <=? byte_to_Z b) && (byte_to_Z b <=? 126));
          cbn [bind]; rewrite <- !app_assoc; reflexivity.
      * cbn [bind]. rewrite <- !app_assoc. reflexivity.
Qed.

Lemma labels_app (a b : list OutLine) : labels (a ++ b) = labels a ++ labels b.
Proof. apply flat_map_app. Qed.

Lemma interp_lines_app (a b : list OutLine) :
  interp_lines (a ++ b) = interp_lines a ++ interp_lines b.
Proof. apply filter_app. Qed.

Lemma warning_plain (data : bytes) (byte_count : Z) :
  labels (warning data byte_count) = []
  /\ interp_lines (warning data byte_count) = []
  /\ filter is_utf8 (warning data byte_count) = [].
Proof. unfold warning. destruct (len data <? byte_count); repeat split. Qed.

Lemma utf8_line_plain (P : Z -> bool) (data : bytes) :
  labels (utf8_line P data) = [] /\ interp_lines (utf8_line P data) = [].
Proof.
  unfold utf8_line. destruct (utf8_decode data) as [text|e]; [|split; reflexivity].
  destruct (isprintable P text); split; reflexivity.
Qed.

Lemma utf8_line_cases (P : Z -> bool) (data : bytes) :
  (exists text, utf8_decode data = Ok text /\ isprintable P text = true
                /\ utf8_line P data = [UTF8_String text])
  \/ ((raises (utf8_decode data) = true
       \/ exists text, utf8_decode data = Ok text /\ isprintable P text = false)
      /\ utf8_line P data = []).
Proof.
  unfold utf8_line. destruct (utf8_decode data) as [text|e].
  - destruct (isprintable P text) eqn:Hp.
    + left. now exists text.
    + right. split; [right; now exists text | reflexivity].
  - right. split; [now left | reflexivity].
Qed.

Lemma width_lines_labels (data : bytes) :
  labels (width_lines data) = selected data.
Proof.
  unfold width_lines, selected.
  destruct (len data =? 4); [reflexivity|].
  destruct (len data =? 2); [reflexivity|].
  destruct (len data =? 1); [|reflexivity].
  destruct (in_range 32 126 (nth 0 data x00)); reflexivity.
Qed.

Lemma width_lines_plain (data : bytes) :
  filter is_utf8 (width_lines data) = []
  /\ forall l, ~ In (Interp l Invalid) (width_lines data).
Proof.
  unfold width_lines.
  destruct (len data =? 4);
    [split; [reflexivity | intros l Hin; cbn [In] in Hin;
                           repeat (destruct Hin as [Hin|Hin]; try discriminate);
                           exact Hin]|].
  destruct (len data =? 2);
    [split; [reflexivity | intros l Hin; cbn [In] in Hin;
                           repeat (destruct Hin as [Hin|Hin]; try discriminate);
                           exact Hin]|].
  destruct (len data =? 1); [|split; [reflexivity | intros l []]].
  destruct (in_range 32 126 (nth 0 data x00));
    (split; [reflexivity | intros l Hin; cbn [In app] in Hin;
                           repeat (destruct Hin as [Hin|Hin]; try discriminate);
                           exact Hin]).
Qed.

(** The labels and the interpretation lines of a whole report. *)
Lemma report_labels (P : Z -> bool) (data : bytes) (offset byte_count : Z) :
  labels (warning data byte_count ++ [Heading offset; Raw_Bytes data]
          ++ width_lines data ++ utf8_line P data)
  = selected data.
Proof.
  rewrite !labels_app, width_lines_labels.
  destruct (warning_plain data byte_count) as (-> & _).
  destruct (utf8_line_plain P data) as (-> & _).
  cbn [labels flat_map app]. apply app_nil_r.
Qed.

Lemma report_interp_lines (P : Z -> bool) (data : bytes) (offset byte_count : Z) :
  interp_lines (warning data byte_count ++ [Heading offset; Raw_Bytes data]
                ++ width_lines data ++ utf8_line P data)
  = interp_lines (width_lines data).
Proof.
  rewrite !interp_lines_app.
  destruct (warning_plain data byte_count) as (_ & -> & _).
  destruct (utf8_line_plain P data) as (_ & ->).
  cbn [interp_lines filter is_interp app]. apply app_nil_r.
Qed.

(** C2.  When the window read has exactly 4 bytes, the report holds
    exactly six interpretation lines, in the order Float (LE), Float (BE),
    Uint32 (LE), Uint32 (BE), Int32 (LE), Int32 (BE), each with its decoded
    value, whatever the four bytes are. *)
Theorem four_bytes_six_lines (P : Z -> bool) (content : bytes)
    (offset byte_count : Z) (data : bytes) :
  seek_read content offset byte_count = Ok data ->
  len data = 4 ->
  exists out,
    analyze_offset P content offset byte_count = Ok out
    /\ labels out
       = [Float_LE; Float_BE; Uint32_LE; Uint32_BE; Int32_LE; Int32_BE]
    /\ interp_lines out
       = [Interp Float_LE (FloatVal (convert binary32 binary64 (uint_of_bytes LittleEndian data)));
          Interp Float_BE (FloatVal (convert binary32 binary64 (uint_of_bytes BigEndian data)));
          Interp Uint32_LE (IntVal (uint_of_bytes LittleEndian data));
          Interp Uint32_BE (IntVal (uint_of_bytes BigEndian data));
          Interp Int32_LE (IntVal (to_signed 32 (uint_of_bytes LittleEndian data)));
          Interp Int32_BE (IntVal (to_signed 32 (uint_of_bytes BigEndian data)))].
Proof.
  intros H H4. eexists. split; [apply analyze_offset_spec, H|].
  rewrite report_labels, report_interp_lines.
  unfold selected, width_lines. rewrite (proj2 (Z.eqb_eq _ _) H4).
  split; reflexivity.
Qed.

Lemma four_bytes_six_lines_witness :
  seek_read [x41; xff; xff; xff; xff; x42] 1 4 = Ok [xff; xff; xff; xff]
  /\ exists out,
       analyze_offset (fun _ => true) [x41; xff; xff; xff; xff; x42] 1 4 = Ok out
       /\ labels out
          = [Float_LE; Float_BE; Uint32_LE; Uint32_BE; Int32_LE; Int32_BE].
Proof.
  split; [reflexivity|].
  destruct (four_bytes_six_lines (fun _ => true)
              [x41; xff; xff; xff; xff; x42] 1 4 [xff; xff; xff; xff]
              eq_refl eq_refl) as (out & Ho & Hl & _).
  exists out. split; assumption.
Defined.

(** The two patterns the statement names. *)
Example four_zero_bytes :
  analyze_offset (fun _ => true) [x00; x00; x00; x00] 0 4
  = Ok [Heading 0; Raw_Bytes [x00; x00; x00; x00]; Interpretations;
        Interp Float_LE (FloatVal 0); Interp Float_BE (FloatVal 0);
        Interp Uint32_LE (IntVal 0); Interp Uint32_BE (IntVal 0);
        Interp Int32_LE (IntVal 0); Interp Int32_BE (IntVal 0)].
Proof. vm_compute. reflexivity. Qed.

Example four_ff_bytes :
  analyze_offset (fun _ => true) [xff; xff; xff; xff] 0 4
  = Ok [Heading 0; Raw_Bytes [xff; xff; xff; xff]; Interpretations;
        Interp Float_LE (FloatVal 18446744073172680704);
        Interp Float_BE (FloatVal 18446744073172680704);
        Interp Uint32_LE (IntVal 4294967295);
        Interp Uint32_BE (IntVal 4294967295);
        Interp Int32_LE (IntVal (-1)); Interp Int32_BE (IntVal (-1))]
  /\ is_nan binary64 18446744073172680704 = true.
Proof. split; vm_compute; reflexivity. Qed.

Lemma In_report (P : Z -> bool) (data : bytes) (offset byte_count : Z)
    (l : OutLine) :
  In l (width_lines data) ->
  In l (warning data byte_count ++ [Heading offset; Raw_Bytes data]
        ++ width_lines data ++ utf8_line P data).
Proof.
  intros H. apply in_or_app. right. apply in_or_app. right.
  apply in_or_app. now left.
Qed.

(** C6.  Whatever window is read, the report is produced, every encoding
    the width selects has its line, and no line shows "[invalid]": with
    4, 2 or 1 bytes the [struct.unpack] calls of that branch all return.
    A float pattern that is a NaN or an infinity is shown as a float
    value of the same kind. *)
Theorem fixed_width_decoding_succeeds (P : Z -> bool) (content : bytes)
    (offset byte_count : Z) (data : bytes) :
  seek_read content offset byte_count = Ok data ->
  exists out,
    analyze_offset P content offset byte_count = Ok out
    /\ labels out = selected data
    /\ (forall l, ~ In (Interp l Invalid) out)
    /\ (len data = 4 -> forall o,
          raises (struct_unpack_f o data) = false
          /\ raises (struct_unpack_I o data) = false
          /\ raises (struct_unpack_i o data) = false)
    /\ (len data = 2 -> forall o, raises (struct_unpack_H o data) = false)
    /\ (len data = 1 ->
          raises (struct_unpack_b data) = false
          /\ raises (py_index data 0) = false)
    /\ (len data = 4 -> forall o,
          let b := uint_of_bytes o data in
          let x := convert binary32 binary64 b in
          In (Interp (float_label o) (FloatVal x)) out
          /\ (is_nan binary32 b = true -> is_nan binary64 x = true)
          /\ (is_inf binary32 b = true -> is_inf binary64 x = true)).
Proof.
  intros H. eexists. split; [apply analyze_offset_spec, H|].
  split; [apply report_labels|].
  split; [|split; [|split; [|split]]].
  - intros l Hin.
    apply in_app_or in Hin. destruct Hin as [Hin|Hin].
    { unfold warning in Hin. destruct (len data <? byte_count);
        cbn [In] in Hin; intuition discriminate. }
    apply in_app_or in Hin. destruct Hin as [Hin|Hin].
    { cbn [In] in Hin. intuition discriminate. }
    apply in_app_or in Hin. destruct Hin as [Hin|Hin].
    { now apply (proj2 (width_lines_plain data) l). }
    unfold utf8_line in Hin. destruct (utf8_decode data) as [text|e]; [|easy].
    destruct (isprintable P text); cbn [In] in Hin; intuition discriminate.
  - intros H4 o.
    unfold struct_unpack_f, struct_unpack_I, struct_unpack_i, require_size.
    rewrite (proj2 (Z.eqb_eq _ _) H4). repeat split.
  - intros H2 o. unfold struct_unpack_H, require_size.
    rewrite (proj2 (Z.eqb_eq _ _) H2). reflexivity.
  - intros H1. destruct (len_one data H1) as (b & ->). split; reflexivity.
  - intros H4 o b x. split; [|split].
    + apply In_report. unfold width_lines.
      rewrite (proj2 (Z.eqb_eq _ _) H4).
      destruct o; cbn [float_label In]; auto.
    + apply widen_nan.
    + apply widen_inf.
Qed.

Lemma fixed_width_decoding_succeeds_witness :
  seek_read [x00; x00; xc0; x7f] 0 4 = Ok [x00; x00; xc0; x7f]
  /\ is_nan binary32 (uint_of_bytes LittleEndian [x00; x00; xc0; x7f]) = true
  /\ exists out,
       analyze_offset (fun _ => true) [x00; x00; xc0; x7f] 0 4 = Ok out
       /\ forall l, ~ In (Interp l Invalid) out.
Proof.
  split; [reflexivity|]. split; [vm_compute; reflexivity|].
  destruct (fixed_width_decoding_succeeds (fun _ => true)
              [x00; x00; xc0; x7f] 0 4 [x00; x00; xc0; x7f] eq_refl)
    as (out & Ho & _ & Hinv & _).
  exists out. split; assumption.
Defined.




(** C8.  The report is a base part, which does not depend on the text
    decoding and holds every line the width selects, followed by the text
    line or by nothing.  The text line is present exactly when the whole
    window decodes as UTF-8 and the decoded text is printable; when the
    decoding raises or the text is not printable, the report is the base
    part alone. *)
Theorem utf8_line_iff (P : Z -> bool) (content : bytes)
    (offset byte_count : Z) (data : bytes) :
  seek_read content offset byte_count = Ok data ->
  exists base out,
    analyze_offset P content offset byte_count = Ok out
    /\ filter is_utf8 base = []
    /\ labels base = selected data
    /\ (forall Q, exists tail,
          analyze_offset Q content offset byte_count = Ok (base ++ tail)
          /\ (tail = [] \/ exists text, tail = [UTF8_String text]))
    /\ (forall text,
          In (UTF8_String text) out
          <-> utf8_decode data = Ok text /\ isprintable P text = true)
    /\ (raises (utf8_decode data) = true
        \/ (exists text, utf8_decode data = Ok text
                         /\ isprintable P text = false) ->
        out = base /\ labels out = selected data).
Proof.
  intros H.
  exists (warning data byte_count ++ [Heading offset; Raw_Bytes data]
          ++ width_lines data).
  eexists. split; [apply analyze_offset_spec, H|].
  assert (Hbase : filter is_utf8
                    (warning data byte_count
                     ++ [Heading offset; Raw_Bytes data] ++ width_lines data)
                  = []).
  { rewrite !filter_app.
    destruct (warning_plain data byte_count) as (_ & _ & ->).
    destruct (width_lines_plain data) as (-> & _). reflexivity. }
  assert (Hlab : labels
                   (warning data byte_count
                    ++ [Heading offset; Raw_Bytes data] ++ width_lines data)
                 = selected data).
  { rewrite !labels_app, width_lines_labels.
    destruct (warning_plain data byte_count) as (-> & _). reflexivity. }
  split; [exact Hbase|]. split; [exact Hlab|]. split; [|split].
  - intros Q. exists (utf8_line Q data). split.
    + rewrite (analyze_offset_spec Q _ _ _ _ H), <- !app_assoc. reflexivity.
    + destruct (utf8_line_cases Q data) as [(text & _ & _ & ->) | (_ & ->)];
        [right; now exists text | now left].
  - intros text.
    replace (warning data byte_count ++ [Heading offset; Raw_Bytes data]
             ++ width_lines data ++ utf8_line P data)
      with ((warning data byte_count ++ [Heading offset; Raw_Bytes data]
             ++ width_lines data) ++ utf8_line P data)
      by (rewrite <- !app_assoc; reflexivity).
    rewrite in_app_iff. split.
    + intros [Hin | Hin].
      * assert (Hf : In (UTF8_String text)
                       (filter is_utf8
                          (warning data byte_count
                           ++ [Heading offset; Raw_Bytes data]
                           ++ width_lines data)))
          by (apply filter_In; split; [exact Hin | reflexivity]).
        rewrite Hbase in Hf. destruct Hf.
      * destruct (utf8_line_cases P data)
          as [(t & Hd & Hp & E) | (_ & E)]; rewrite E in Hin.
        -- destruct Hin as [Hin | []]. inversion Hin; subst. auto.
        -- destruct Hin.
    + intros [Hd Hp]. right. unfold utf8_line. rewrite Hd, Hp. now left.
  - intros Hfail.
    assert (E : utf8_line P data = []).
    { destruct (utf8_line_cases P data) as [(t & Hd & Hp & _) | (_ & E)];
        [|exact E].
      destruct Hfail as [Hr | (t' & Hd' & Hp')].
      - rewrite Hd in Hr. discriminate.
      - rewrite Hd in Hd'. inversion Hd'; subst. congruence. }
    split; [|apply report_labels].
    rewrite E. now rewrite app_nil_r.
Qed.

(** Four bytes that are not UTF-8: the six lines and no text line. *)
Lemma utf8_line_iff_witness :
  seek_read [x00; x00; x70; xc2] 0 4 = Ok [x00; x00; x70; xc2]
  /\ utf8_decode [x00; x00; x70; xc2] = Raise UnicodeDecodeError
  /\ exists out,
       analyze_offset (fun _ => true) [x00; x00; x70; xc2] 0 4 = Ok out
       /\ labels out
          = [Float_LE; Float_BE; Uint32_LE; Uint32_BE; Int32_LE; Int32_BE]
       /\ forall text, ~ In (UTF8_String text) out.
Proof.
  split; [reflexivity|]. split; [reflexivity|].
  destruct (utf8_line_iff (fun _ => true) [x00; x00; x70; xc2] 0 4
              [x00; x00; x70; xc2] eq_refl)
    as (base & out & Ho & _ & _ & _ & Hiff & Hfail).
  exists out. split; [exact Ho|]. split.
  - apply Hfail. left. reflexivity.
  - intros text Hin. apply Hiff in Hin. destruct Hin as [Hd _].
    vm_compute in Hd. discriminate.
Defined.

(** C10.  When the window read is empty, the report has no
    interpretation line and ends with the text line for the empty
    string: zero bytes decode to the empty text, which is printable. *)
Theorem empty_window_text_line (P : Z -> bool) (content : bytes)
    (offset byte_count : Z) (data : bytes) :
  seek_read content offset byte_count = Ok data ->
  len data = 0 ->
  exists out,
    analyze_offset P content offset byte_count = Ok out
    /\ out = warning [] byte_count
             ++ [Heading offset; Raw_Bytes []; UTF8_String []]
    /\ interp_lines out = []
    /\ In (UTF8_String []) out
    /\ utf8_decode data = Ok []
    /\ isprintable P [] = true.
Proof.
  intros H H0.
  assert (data = []) as -> by (destruct data; [reflexivity | discriminate]).
  eexists. split; [apply analyze_offset_spec, H|].
  split; [reflexivity|]. split; [|split; [|split; reflexivity]].
  - rewrite report_interp_lines. reflexivity.
  - apply in_or_app. right. right. right. left. reflexivity.
Qed.

(** An offset at or past the end of the file reads an empty window. *)
Lemma seek_read_past_end (content : bytes) (offset byte_count : Z) :
  len content <= offset -> -1 <= byte_count ->
  seek_read content offset byte_count = Ok [].
Proof.
  intros Ho Hb. unfold seek_read. pose proof (len_nonneg content).
  destruct (Z.ltb_spec offset 0); [lia|].
  destruct (Z.ltb_spec byte_count (-1)); [lia|].
  rewrite skipn_all2 by (unfold len in Ho; lia).
  rewrite firstn_nil. now destruct (byte_count =? -1).
Qed.

Lemma empty_window_text_line_witness :
  seek_read [x41; x42] 2 4 = Ok [] /\ len (@nil byte) = 0
  /\ analyze_offset (fun _ => true) [x41; x42] 2 4
     = Ok [Warning_only_read 0 4; Heading 2; Raw_Bytes []; UTF8_String []].
Proof.
  split; [reflexivity|]. split; [reflexivity|].
  destruct (empty_window_text_line (fun _ => true) [x41; x42] 2 4 []
              eq_refl eq_refl) as (out & -> & -> & _).
  reflexivity.
Defined.

(** ** Byte strings and the integers they spell *)


Lemma byte_to_Z_range (b : byte) : 0 <= byte_to_Z b < 256.
Proof.
  unfold byte_to_Z. pose proof (Byte.to_N_bounded b). lia.
Qed.

Lemma byte_of_to_Z (b : byte) (v : Z) : byte_of_Z (byte_to_Z b + 256 * v) = b.
Proof.
  unfold byte_of_Z. pose proof (byte_to_Z_range b) as Hb.
  replace ((byte_to_Z b + 256 * v) mod 256) with (byte_to_Z b)
    by (Z.div_mod_to_equations; lia).
  unfold byte_to_Z. rewrite N2Z.id, Byte.of_to_N. reflexivity.
Qed.

Lemma byte_to_of_Z (n : Z) : byte_to_Z (byte_of_Z n) = n mod 256.
Proof.
  unfold byte_of_Z, byte_to_Z.
  assert (H : 0 <= n mod 256 < 256) by (apply Z.mod_pos_bound; lia).
  destruct (Byte.of_N (Z.to_N (n mod 256))) as [b|] eqn:E.
  - apply Byte.to_of_N in E. rewrite E. lia.
  - apply Byte.of_N_None_iff in E. lia.
Qed.

Lemma le_bytes_value (data : bytes) :
  le_bytes (length data) (le_value data) = data.
Proof.
  induction data as [|b data IH]; cbn [le_value le_bytes length]; [reflexivity|].
  rewrite byte_of_to_Z. f_equal.
  replace ((byte_to_Z b + 256 * le_value data) / 256) with (le_value data);
    [exact IH|].
  pose proof (byte_to_Z_range b). Z.div_mod_to_equations. lia.
Qed.

Lemma le_value_range (data : bytes) :
  0 <= le_value data < 256 ^ len data.
Proof.
  induction data as [|b data IH]; [cbn; lia|].
  cbn [le_value]. unfold len in *. cbn [length].
  rewrite Nat2Z.inj_succ, Z.pow_succ_r by lia.
  pose proof (byte_to_Z_range b). lia.
Qed.

Lemma le_value_bytes (n : nat) (v : Z) :
  le_value (le_bytes n v) = v mod 256 ^ Z.of_nat n.
Proof.
  revert v. induction n as [|n IH]; intros v.
  - cbn. now rewrite Z.mod_1_r.
  - cbn [le_bytes le_value]. rewrite byte_to_of_Z, IH.
    rewrite Nat2Z.inj_succ, Z.pow_succ_r by lia.
    rewrite Z.rem_mul_r by lia. reflexivity.
Qed.

Lemma bytes_of_uint_of_bytes (o : ByteOrder) (data : bytes) :
  bytes_of_uint o (length data) (uint_of_bytes o data) = data.
Proof.
  unfold bytes_of_uint, uint_of_bytes. destruct o; cbn [order_bytes].
  - apply le_bytes_value.
  - rewrite <- (length_rev data), le_bytes_value. apply rev_involutive.
Qed.

Lemma uint_of_bytes_range (o : ByteOrder) (data : bytes) :
  0 <= uint_of_bytes o data < 256 ^ len data.
Proof.
  unfold uint_of_bytes. destruct o; cbn [order_bytes].
  - apply le_value_range.
  - replace (len data) with (len (rev data)) by (unfold len; now rewrite length_rev).
    apply le_value_range.
Qed.

Lemma uint_of_bytes_of_uint (o : ByteOrder) (n : nat) (v : Z) :
  uint_of_bytes o (bytes_of_uint o n v) = v mod 256 ^ Z.of_nat n.
Proof.
  unfold bytes_of_uint, uint_of_bytes. destruct o; cbn [order_bytes];
    rewrite ?rev_involutive; apply le_value_bytes.
Qed.


(** ** Rounding a value the target format holds exactly *)

Lemma digits2_size (m : positive) : digits2_pos m = Pos.size m.
Proof. induction m; simpl; congruence. Qed.

Lemma digits2_bounds (m : positive) :
  2 ^ (Zpos (digits2_pos m) - 1) <= Zpos m < 2 ^ Zpos (digits2_pos m).
Proof.
  rewrite digits2_size. split.
  - pose proof (Pos.size_le m) as H.
    apply Pos2Z.pos_le_pos in H. rewrite Pos2Z.inj_pow in H.
    replace (Zpos (Pos.size m)) with (Z.succ (Zpos (Pos.size m) - 1)) in H by lia.
    rewrite Z.pow_succ_r in H by lia. lia.
  - pose proof (Pos.size_gt m) as H.
    apply Pos2Z.pos_lt_pos in H. now rewrite Pos2Z.inj_pow in H.
Qed.

Lemma digits2_unique (m : positive) (d : Z) :
  2 ^ (d - 1) <= Zpos m < 2 ^ d -> Zpos (digits2_pos m) = d.
Proof.
  intros [Hlo Hhi]. pose proof (digits2_bounds m) as [Hlo' Hhi'].
  assert (0 < d).
  { destruct d as [|p|p]; [change (2 ^ 0) with 1 in Hhi; lia | lia |].
    rewrite Z.pow_neg_r in Hhi by lia. lia. }
  destruct (Z.lt_trichotomy (Zpos (digits2_pos m)) d) as [Hlt | [Heq | Hgt]];
    [|assumption|].
  - assert (2 ^ Zpos (digits2_pos m) <= 2 ^ (d - 1))
      by (apply Z.pow_le_mono_r; lia). lia.
  - assert (2 ^ d <= 2 ^ (Zpos (digits2_pos m) - 1))
      by (apply Z.pow_le_mono_r; lia). lia.
Qed.

Lemma iter_xO_value (m k : positive) :
  Zpos (Pos.iter xO m k) = Zpos m * 2 ^ Zpos k.
Proof.
  induction k as [|k IH] using Pos.peano_ind.
  - cbn [Pos.iter]. lia.
  - rewrite Pos.iter_succ, Pos2Z.inj_xO, IH, Pos2Z.inj_succ, Z.pow_succ_r by lia.
    lia.
Qed.

Lemma digits2_iter_xO (m k : positive) :
  Zpos (digits2_pos (Pos.iter xO m k)) = Zpos (digits2_pos m) + Zpos k.
Proof.
  induction k as [|k IH] using Pos.peano_ind.
  - cbn [Pos.iter digits2_pos]. lia.
  - rewrite Pos.iter_succ. cbn [digits2_pos]. lia.
Qed.

(** Shifting out [k] zero bits is exact. *)
Lemma shr_exact (k m : positive) :
  iter_pos shr_1 k (Build_shr_record (Zpos (Pos.iter xO m k)) false false)
  = Build_shr_record (Zpos m) false false.
Proof.
  revert m. induction k as [k IH | k IH |]; intros m; cbn [iter_pos Pos.iter].
  - cbn [shr_1 orb]. rewrite IH, IH. reflexivity.
  - rewrite IH, IH. reflexivity.
  - reflexivity.
Qed.

(** A significand already at the exponent of the format is kept. *)
Lemma round_aux_canonical (prec emax : Z) (s : bool) (m : positive) (e : Z) :
  fexp prec emax (Zpos (digits2_pos m) + e) = e ->
  e <= emax - prec ->
  binary_round_aux prec emax s (Zpos m) e loc_Exact = S754_finite s m e.
Proof.
  intros Hc He. unfold binary_round_aux, shr_fexp.
  cbn [Zdigits2 shr_record_of_loc]. rewrite Hc, Z.sub_diag.
  cbn [shr shr_m loc_of_shr_record round_nearest_even Zdigits2 shr_record_of_loc].
  rewrite Hc, Z.sub_diag. cbn [shr shr_m].
  destruct (Z.leb_spec e (emax - prec)); [reflexivity | lia].
Qed.

(** Widening: a value canonical in the narrow format is normalised to a
    full significand of the wide format, exactly. *)
Lemma round_widen (s : bool) (m : positive) (e : Z) :
  fexp 24 128 (Zpos (digits2_pos m) + e) = e -> e <= 104 ->
  exists k : positive,
    Zpos k = 53 - Zpos (digits2_pos m)
    /\ binary_round 53 1024 s m e
       = S754_finite s (Pos.iter xO m k) (e - Zpos k).
Proof.
  intros Hc He. unfold fexp, emin in Hc.
  set (d := Zpos (digits2_pos m)) in *.
  assert (Hd : 1 <= d <= 24) by (unfold d; lia).
  assert (Hlo : -149 <= e) by lia.
  exists (Z.to_pos (53 - d)). split; [lia|].
  unfold binary_round. fold d. unfold fexp at 1, emin.
  replace (Z.max (d + e - 53) (3 - 1024 - 53)) with (d + e - 53) by lia.
  unfold shl_align.
  replace (d + e - 53 - e) with (Zneg (Z.to_pos (53 - d))) by lia.
  replace (d + e - 53) with (e - Zpos (Z.to_pos (53 - d))) by lia.
  apply round_aux_canonical; [|lia].
  rewrite digits2_iter_xO. fold d. unfold fexp, emin. lia.
Qed.

(** Narrowing the widened value gives the original back. *)
Lemma round_narrow (s : bool) (m k : positive) (e : Z) :
  fexp 24 128 (Zpos (digits2_pos m) + e) = e -> e <= 104 ->
  Zpos k = 53 - Zpos (digits2_pos m) ->
  binary_round 24 128 s (Pos.iter xO m k) (e - Zpos k) = S754_finite s m e.
Proof.
  intros Hc He Hk. unfold binary_round.
  assert (Hf : fexp 24 128 (Zpos (digits2_pos (Pos.iter xO m k)) + (e - Zpos k)) = e).
  { rewrite digits2_iter_xO.
    replace (Zpos (digits2_pos m) + Zpos k + (e - Zpos k))
      with (Zpos (digits2_pos m) + e) by lia.
    exact Hc. }
  rewrite Hf. unfold shl_align.
  replace (e - (e - Zpos k)) with (Zpos k) by lia.
  unfold binary_round_aux, shr_fexp.
  cbn [Zdigits2 shr_record_of_loc]. rewrite Hf.
  replace (e - (e - Zpos k)) with (Zpos k) by lia.
  cbn [shr]. rewrite shr_exact.
  cbn [shr_m loc_of_shr_record round_nearest_even Zdigits2 shr_record_of_loc].
  replace (e - Zpos k + Zpos k) with e by lia.
  rewrite Hc, Z.sub_diag. cbn [shr shr_m].
  destruct (Z.leb_spec e (128 - 24)); [reflexivity | lia].
Qed.

(** ** Bit patterns and their decoded form *)

Lemma split32 (b : Z) :
  0 <= b < 4294967296 ->
  b = sign_bit binary32 (sign_field binary32 b)
      + Z.shiftl (expo_field binary32 b) 23 + mant_field binary32 b
  /\ 0 <= expo_field binary32 b < 256
  /\ 0 <= mant_field binary32 b < 8388608.
Proof.
  intros Hb. unfold sign_field, expo_field, mant_field, sign_bit.
  cbn [mant_bits expo_bits binary32].
  rewrite !Z.land_ones, Z.shiftr_div_pow2, Z.shiftl_mul_pow2 by lia.
  change (23 + 8) with 31.
  destruct (Z.testbit b 31) eqn:Hs;
    [apply Z.testbit_true in Hs | apply Z.testbit_false in Hs]; try lia;
    change (2 ^ 23) with 8388608 in *;
    change (2 ^ 31) with 2147483648 in *;
    change (2 ^ 8) with 256 in *;
    Z.div_mod_to_equations; lia.
Qed.

(** Encoding what a 32-bit pattern decodes to gives the pattern. *)
Lemma encode_decode32 (b : Z) :
  0 <= b < 4294967296 -> encode binary32 (decode binary32 b) = b.
Proof.
  intros Hb. destruct (split32 b Hb) as (Eb & HE & HM).
  unfold decode. cbn [mant_bits expo_bits binary32].
  change (Z.ones 8) with 255.
  set (s := sign_field binary32 b) in *.
  set (E := expo_field binary32 b) in *.
  set (M := mant_field binary32 b) in *.
  clearbody s E M.
  destruct (Z.eqb_spec E 255) as [H255|H255].
  - destruct (Z.eqb_spec M 0) as [HM0|HM0]; unfold encode;
      cbn [mant_bits expo_bits binary32]; change (Z.ones 8) with 255.
    + subst E M. lia.
    + rewrite Z.land_ones by lia. change (2 ^ 23) with 8388608.
      rewrite Z.mod_small by lia. subst E. lia.
  - destruct (Z.eqb_spec E 0) as [H0|H0].
    + subst E. rewrite Z.shiftl_0_l in Eb.
      destruct M as [|p|p]; try lia; unfold encode;
        cbn [mant_bits expo_bits binary32]; [lia|].
      change (2 ^ 23) with 8388608.
      destruct (Z.ltb_spec (Zpos p) 8388608); lia.
    + change (2 ^ 23) with 8388608.
      destruct (8388608 + M) as [|p|p] eqn:EM; try lia.
      unfold encode. cbn [mant_bits expo_bits binary32].
      change (2 ^ 23) with 8388608.
      destruct (Z.ltb_spec (Zpos p) 8388608); [lia|].
      change (fbias binary32) with 127.
      replace (E - 127 - 23 + 127 + 23) with E by lia. lia.
Qed.

(** A finite value read from a 32-bit pattern sits at the exponent of
    the format. *)
Lemma decode32_canonical (b : Z) (s : bool) (m : positive) (e : Z) :
  decode binary32 b = Finite s m e ->
  fexp 24 128 (Zpos (digits2_pos m) + e) = e /\ e <= 104.
Proof.
  unfold decode. cbn [mant_bits expo_bits binary32].
  change (Z.ones 8) with 255. change (2 ^ 23) with 8388608.
  change (femax binary32) with 128. change (fbias binary32) with 127.
  assert (HE : 0 <= expo_field binary32 b < 256).
  { unfold expo_field. cbn [mant_bits expo_bits binary32].
    rewrite Z.land_ones by lia. apply Z.mod_pos_bound. lia. }
  assert (HM : 0 <= mant_field binary32 b < 8388608).
  { unfold mant_field. cbn [mant_bits expo_bits binary32].
    rewrite Z.land_ones by lia. apply Z.mod_pos_bound. lia. }
  set (E := expo_field binary32 b) in *.
  set (M := mant_field binary32 b) in *.
  clearbody E M.
  destruct (Z.eqb_spec E 255); [destruct (M =? 0); discriminate|].
  destruct (Z.eqb_spec E 0).
  - destruct M as [|p|p] eqn:EM; try discriminate.
    intros H. injection H as _ -> <-.
    pose proof (digits2_bounds m) as [Hlo _].
    assert (Hd : Zpos (digits2_pos m) <= 23).
    { destruct (Z.leb_spec (Zpos (digits2_pos m)) 23); [assumption|].
      assert (2 ^ 23 <= 2 ^ (Zpos (digits2_pos m) - 1))
        by (apply Z.pow_le_mono_r; lia).
      change (2 ^ 23) with 8388608 in *. lia. }
    unfold fexp, emin. lia.
  - destruct (8388608 + M) as [|p|p] eqn:EM; try discriminate.
    intros H. injection H as _ -> <-.
    assert (Hd : Zpos (digits2_pos m) = 24).
    { apply digits2_unique. change (2 ^ (24 - 1)) with 8388608.
      change (2 ^ 24) with 16777216. lia. }
    unfold fexp, emin. lia.
Qed.

Lemma decode_encode_finite64 (s : bool) (m : positive) (e : Z) :
  4503599627370496 <= Zpos m < 9007199254740992 ->
  -1074 <= e <= 971 ->
  decode binary64 (encode binary64 (Finite s m e)) = Finite s m e.
Proof.
  intros Hm He. unfold encode. cbn [mant_bits expo_bits binary64].
  change (2 ^ 52) with 4503599627370496.
  destruct (Z.ltb_spec (Zpos m) 4503599627370496); [lia|].
  change (fbias binary64) with 1023.
  destruct (fields64 s (e + 1023 + 52) (Zpos m - 4503599627370496))
    as (Hs & HE & HM); [lia | lia |].
  unfold decode. rewrite Hs, HE, HM. cbn [mant_bits expo_bits binary64].
  change (Z.ones 11) with 2047. change (2 ^ 52) with 4503599627370496.
  change (fbias binary64) with 1023.
  destruct (Z.eqb_spec (e + 1023 + 52) 2047); [lia|].
  destruct (Z.eqb_spec (e + 1023 + 52) 0); [lia|].
  replace (4503599627370496 + (Zpos m - 4503599627370496)) with (Zpos m) by lia.
  f_equal. lia.
Qed.

(** float -> double -> float is the identity on every pattern that is
    not a NaN. *)
Lemma narrow_widen (b : Z) :
  0 <= b < 4294967296 -> is_nan binary32 b = false ->
  convert binary64 binary32 (convert binary32 binary64 b) = b.
Proof.
  intros Hb Hn. pose proof (encode_decode32 b Hb) as Hed.
  unfold is_nan in Hn. unfold convert at 2.
  destruct (decode binary32 b) as [s|s|s p|s m e] eqn:Hd; try discriminate.
  - unfold convert.
    replace (decode binary64 (encode binary64 (Zero s))) with (Zero s)
      by (destruct s; reflexivity).
    exact Hed.
  - unfold convert. rewrite decode_encode_inf64. exact Hed.
  - destruct (decode32_canonical b s m e Hd) as [Hc He].
    destruct (round_widen s m e Hc He) as (k & Hk & Hw).
    unfold round_to. change (fprec binary64) with 53.
    change (femax binary64) with 1024. rewrite Hw. cbn [of_spec_float].
    assert (Hdg : 1 <= Zpos (digits2_pos m) <= 24).
    { unfold fexp, emin in Hc. lia. }
    assert (Hlo : -149 <= e) by (unfold fexp, emin in Hc; lia).
    assert (Hmz : 4503599627370496 <= Zpos (Pos.iter xO m k) < 9007199254740992).
    { pose proof (digits2_bounds (Pos.iter xO m k)) as Hbd.
      rewrite digits2_iter_xO in Hbd.
      replace (Zpos (digits2_pos m) + Zpos k) with 53 in Hbd by lia.
      exact Hbd. }
    unfold convert. rewrite decode_encode_finite64 by lia.
    unfold round_to. change (fprec binary32) with 24.
    change (femax binary32) with 128.
    rewrite (round_narrow s m k e Hc He Hk). exact Hed.
Qed.


(** ** The range of a rounded value *)

Lemma shr_1_m (mrs : shr_record) :
  0 <= shr_m mrs -> shr_m (shr_1 mrs) = shr_m mrs / 2.
Proof.
  destruct mrs as [m r s]. cbn [shr_m]. intros Hm.
  destruct m as [|[p|p|]|p]; cbn [shr_1 shr_m];
    try reflexivity; try (Z.div_mod_to_equations; lia).
Qed.

Lemma shr_m_iter (k : positive) (mrs : shr_record) :
  0 <= shr_m mrs ->
  shr_m (iter_pos shr_1 k mrs) = shr_m mrs / 2 ^ Zpos k.
Proof.
  revert mrs. induction k as [k IH | k IH |]; intros mrs Hm; cbn [iter_pos].
  - assert (H1 : 0 <= shr_m (shr_1 mrs))
      by (rewrite shr_1_m by assumption; apply Z.div_pos; lia).
    assert (H2 : 0 <= shr_m (iter_pos shr_1 k (shr_1 mrs)))
      by (rewrite IH by assumption; apply Z.div_pos; lia).
    rewrite IH, IH, shr_1_m by assumption.
    rewrite !Z.div_div by lia. f_equal.
    rewrite Pos2Z.inj_xI, <- Z.pow_add_r, <- Z.pow_succ_r by lia.
    f_equal. lia.
  - assert (H2 : 0 <= shr_m (iter_pos shr_1 k mrs))
      by (rewrite IH by assumption; apply Z.div_pos; lia).
    rewrite IH, IH by assumption.
    rewrite Z.div_div by lia. f_equal.
    rewrite Pos2Z.inj_xO, <- Z.pow_add_r by lia. f_equal. lia.
  - now apply shr_1_m.
Qed.

Lemma Zdigits2_bound (m : Z) : 0 <= m -> m < 2 ^ Zdigits2 m.
Proof.
  destruct m as [|p|p]; intros Hm; cbn [Zdigits2]; try lia.
  apply digits2_bounds.
Qed.

(** After the shift to the exponent of the format, the significand fits
    the precision and the exponent is not below the least one. *)
Lemma shr_fexp_bounds (prec emax : Z) (m e : Z) (l : location) :
  0 < prec -> 0 <= m ->
  0 <= shr_m (fst (shr_fexp prec emax m e l)) < 2 ^ prec
  /\ emin prec emax <= snd (shr_fexp prec emax m e l).
Proof.
  intros Hp Hm. unfold shr_fexp.
  pose proof (Zdigits2_bound m Hm) as Hd.
  assert (Hd0 : 0 <= Zdigits2 m) by (destruct m; cbn; lia).
  set (d := Zdigits2 m) in *.
  assert (Hrec : shr_m (shr_record_of_loc m l) = m)
    by (destruct l as [|[]]; reflexivity).
  assert (Hf : d + e - prec <= fexp prec emax (d + e)
               /\ emin prec emax <= fexp prec emax (d + e))
    by (unfold fexp; lia).
  destruct (fexp prec emax (d + e) - e) as [|n|n] eqn:En; cbn [shr fst snd].
  - rewrite Hrec. split; [|lia]. split; [lia|].
    assert (2 ^ d <= 2 ^ prec) by (apply Z.pow_le_mono_r; lia). lia.
  - rewrite shr_m_iter by (rewrite Hrec; lia). rewrite Hrec.
    split; [|lia]. split; [apply Z.div_pos; lia|].
    apply Z.div_lt_upper_bound; [lia|].
    rewrite <- Z.pow_add_r by lia.
    assert (2 ^ d <= 2 ^ (Zpos n + prec)) by (apply Z.pow_le_mono_r; lia).
    lia.
  - rewrite Hrec. split; [|lia]. split; [lia|].
    assert (2 ^ d <= 2 ^ prec) by (apply Z.pow_le_mono_r; lia). lia.
Qed.

Lemma round_nearest_even_nonneg (m : Z) (l : location) :
  0 <= m -> 0 <= round_nearest_even m l.
Proof.
  intros Hm. destruct l as [|[]]; cbn [round_nearest_even]; try lia.
  destruct (Z.even m); lia.
Qed.

Lemma binary_round_aux_bounds (prec emax : Z) (s s' : bool) (mx ex : Z)
    (lx : location) (m : positive) (e : Z) :
  0 < prec -> 0 <= mx ->
  binary_round_aux prec emax s mx ex lx = S754_finite s' m e ->
  Zpos m < 2 ^ prec /\ emin prec emax <= e <= emax - prec.
Proof.
  intros Hp Hm. unfold binary_round_aux.
  pose proof (shr_fexp_bounds prec emax mx ex lx Hp Hm) as [[H1 _] _].
  destruct (shr_fexp prec emax mx ex lx) as [mrs' e'].
  cbn [fst] in H1.
  pose proof (round_nearest_even_nonneg _ (loc_of_shr_record mrs') H1) as H2.
  pose proof (shr_fexp_bounds prec emax _ e' loc_Exact Hp H2) as [[_ H3] H4].
  destruct (shr_fexp prec emax (round_nearest_even (shr_m mrs')
                                  (loc_of_shr_record mrs')) e' loc_Exact)
    as [mrs'' e''].
  cbn [fst snd] in H3, H4.
  destruct (shr_m mrs'') as [|p|p]; try discriminate.
  destruct (Z.leb_spec e'' (emax - prec)); [|discriminate].
  intros E. injection E as _ <- <-. lia.
Qed.

Lemma binary_round_bounds (prec emax : Z) (s s' : bool) (mx : positive)
    (ex : Z) (m : positive) (e : Z) :
  0 < prec ->
  binary_round prec emax s mx ex = S754_finite s' m e ->
  Zpos m < 2 ^ prec /\ emin prec emax <= e <= emax - prec.
Proof.
  intros Hp. unfold binary_round.
  destruct (shl_align mx ex (fexp prec emax (Zpos (digits2_pos mx) + ex)))
    as [mz ez].
  apply binary_round_aux_bounds; [assumption | lia].
Qed.

(** A double converted to a C float is a 32-bit pattern. *)
Lemma narrow_range (x : Z) : 0 <= convert binary64 binary32 x < 4294967296.
Proof.
  unfold convert. destruct (decode binary64 x) as [s|s|s p|s m e].
  - destruct s; cbv; split; congruence.
  - destruct s; cbv; split; congruence.
  - unfold encode. cbn [mant_bits expo_bits binary32 binary64].
    rewrite Z.land_ones by lia.
    pose proof (Z.mod_pos_bound
                  (Z.lor (quiet_bit binary32) (Z.shiftl p (23 - 52))) (2 ^ 23)
                  eq_refl) as Hb.
    change (2 ^ 23) with 8388608 in *.
    change (Z.shiftl (Z.ones 8) 23) with 2139095040.
    destruct s; cbn [sign_bit mant_bits expo_bits binary32];
      change (2 ^ (23 + 8)) with 2147483648; lia.
  - unfold round_to. change (fprec binary32) with 24.
    change (femax binary32) with 128.
    destruct (binary_round 24 128 s m e) as [s'|s'|  |s' m' e'] eqn:Hr;
      cbn [of_spec_float].
    + destruct s'; cbv; split; congruence.
    + destruct s'; cbv; split; congruence.
    + cbv; split; congruence.
    + destruct (binary_round_bounds 24 128 _ _ _ _ _ _ eq_refl Hr) as [Hm He].
      unfold emin in He. change (2 ^ 24) with 16777216 in Hm.
      unfold encode. cbn [mant_bits expo_bits binary32].
      change (2 ^ 23) with 8388608. change (fbias binary32) with 127.
      rewrite Z.shiftl_mul_pow2 by lia. change (2 ^ 23) with 8388608.
      destruct (Z.ltb_spec (Zpos m') 8388608);
        destruct s'; cbn [sign_bit mant_bits expo_bits binary32];
        change (2 ^ (23 + 8)) with 2147483648; lia.
Qed.


(** ** What a report tells about the window *)

Lemma analyze_offset_ok (P : Z -> bool) (content : bytes)
    (offset byte_count : Z) (out : list OutLine) :
  analyze_offset P content offset byte_count = Ok out ->
  exists data,
    seek_read content offset byte_count = Ok data
    /\ out = warning data byte_count ++ [Heading offset; Raw_Bytes data]
             ++ width_lines data ++ utf8_line P data.
Proof.
  intros H. destruct (seek_read content offset byte_count) as [data|e] eqn:E.
  - rewrite (analyze_offset_spec P _ _ _ _ E) in H. injection H as <-.
    now exists data.
  - unfold analyze_offset in H. rewrite E in H. discriminate.
Qed.

Lemma In_interp_report (P : Z -> bool) (data : bytes) (offset byte_count : Z)
    (l : Label) (v : Shown) :
  In (Interp l v)
     (warning data byte_count ++ [Heading offset; Raw_Bytes data]
      ++ width_lines data ++ utf8_line P data)
  <-> In (Interp l v) (width_lines data).
Proof.
  split; [|apply In_report].
  intros Hin.
  apply in_app_or in Hin. destruct Hin as [Hin|Hin].
  { unfold warning in Hin. destruct (len data <? byte_count);
      cbn [In] in Hin; intuition discriminate. }
  apply in_app_or in Hin. destruct Hin as [Hin|Hin].
  { cbn [In] in Hin. intuition discriminate. }
  apply in_app_or in Hin. destruct Hin as [Hin|Hin]; [exact Hin|].
  unfold utf8_line in Hin. destruct (utf8_decode data) as [text|e]; [|easy].
  destruct (isprintable P text); cbn [In] in Hin; intuition discriminate.
Qed.

Ltac pick_line H :=
  cbn [In app] in H;
  repeat (destruct H as [H|H]; [try discriminate H|]);
  try contradiction.

(** The lines of each width, read back. *)
Lemma width_lines_inv (data : bytes) (l : Label) (v : Shown) :
  In (Interp l v) (width_lines data) ->
  (len data = 4
   /\ ((exists o, l = float_label o
                  /\ v = FloatVal (convert binary32 binary64 (uint_of_bytes o data)))
       \/ (exists o, l = uint32_label o /\ v = IntVal (uint_of_bytes o data))
       \/ (exists o, l = int32_label o
                     /\ v = IntVal (to_signed 32 (uint_of_bytes o data)))))
  \/ (len data = 2
      /\ ((l = Uint16_LE /\ v = IntVal (uint_of_bytes LittleEndian data))
          \/ (l = Uint16_BE /\ v = IntVal (uint_of_bytes BigEndian data))))
  \/ (len data = 1
      /\ ((l = Uint8 /\ v = IntVal (byte_to_Z (nth 0 data x00)))
          \/ (l = Int8 /\ v = IntVal (to_signed 8 (byte_to_Z (nth 0 data x00))))
          \/ (l = ASCII /\ v = CharVal (byte_to_Z (nth 0 data x00))
              /\ in_range 32 126 (nth 0 data x00) = true))).
Proof.
  unfold width_lines.
  destruct (Z.eqb_spec (len data) 4) as [H4|H4].
  { intros H. left. split; [exact H4|].
    cbn [In] in H.
    destruct H as [H|[H|[H|[H|[H|[H|[H|[]]]]]]]]; try discriminate H;
      injection H as <- <-.
    - left. now exists LittleEndian.
    - left. now exists BigEndian.
    - right. left. now exists LittleEndian.
    - right. left. now exists BigEndian.
    - right. right. now exists LittleEndian.
    - right. right. now exists BigEndian. }
  destruct (Z.eqb_spec (len data) 2) as [H2|H2].
  { intros H. right. left. split; [exact H2|].
    cbn [In] in H.
    destruct H as [H|[H|[H|[]]]]; try discriminate H; injection H as <- <-;
      auto. }
  destruct (Z.eqb_spec (len data) 1) as [H1|H1]; [|intros []].
  intros H. right. right. split; [exact H1|].
  destruct (in_range 32 126 (nth 0 data x00)) eqn:Ha; cbn [In app] in H.
  - destruct H as [H|[H|[H|[H|[]]]]]; try discriminate H;
      injection H as <- <-; auto.
  - destruct H as [H|[H|[H|[]]]]; try discriminate H;
      injection H as <- <-; auto.
Qed.

(** A window of four bytes lies inside the file at its offset. *)
Lemma window_in_content (content : bytes) (offset byte_count : Z)
    (data : bytes) :
  seek_read content offset byte_count = Ok data ->
  len data = 4 ->
  0 <= offset <= len content - 4
  /\ py_slice content offset (offset + 4) = data.
Proof.
  unfold seek_read.
  destruct (Z.ltb_spec offset 0); [discriminate|].
  destruct (Z.ltb_spec byte_count (-1)); [discriminate|].
  intros E H4. injection E as E.
  set (rest := skipn (Z.to_nat offset) content) in *.
  assert (Hpre : exists post, rest = data ++ post).
  { destruct (byte_count =? -1); subst data.
    - exists []. now rewrite app_nil_r.
    - exists (skipn (Z.to_nat byte_count) rest).
      symmetry. apply firstn_skipn. }
  destruct Hpre as (post & Hrest).
  assert (Hc : content = firstn (Z.to_nat offset) content ++ data ++ post).
  { rewrite <- Hrest. symmetry. apply firstn_skipn. }
  assert (Hlen : (Z.to_nat offset + 4 <= length content)%nat).
  { assert (Hl : length rest = (length data + length post)%nat)
      by (rewrite Hrest; apply length_app).
    unfold rest in Hl. rewrite length_skipn in Hl.
    unfold len in H4. lia. }
  assert (Ho : len (firstn (Z.to_nat offset) content) = offset).
  { unfold len. rewrite length_firstn, Nat.min_l by lia. lia. }
  split; [unfold len; lia|].
  set (pre := firstn (Z.to_nat offset) content) in *.
  rewrite Hc, <- Ho.
  apply slice_placed. unfold len in H4. lia.
Qed.

(** ** From a report to a scan *)

Lemma scan_int_value (content : bytes) (n : Z) :
  0 <= n <= 4294967295 ->
  scan_for_value content (PyInt n) "int"
  = Ok (scan_pass content (bytes_of_uint LittleEndian 4 n) uint32_le []
        ++ scan_pass content (bytes_of_uint BigEndian 4 n) uint32_be []).
Proof.
  intros Hn. rewrite scan_for_value_spec, (encoded_passes_uint32 n Hn).
  cbn [bind flat_map fst snd]. now rewrite app_nil_r.
Qed.

Lemma scan_float_value (content : bytes) (x : Z) :
  float32_overflows x = false ->
  scan_for_value content (PyFloat x) "float"
  = Ok (scan_pass content
          (bytes_of_uint LittleEndian 4 (convert binary64 binary32 x)) float_le []
        ++ scan_pass content
             (bytes_of_uint BigEndian 4 (convert binary64 binary32 x)) float_be []).
Proof.
  intros Hx. rewrite scan_for_value_spec, (encoded_passes_float32 x Hx).
  cbn [bind flat_map fst snd]. now rewrite app_nil_r.
Qed.

Lemma four_bytes_back (o : ByteOrder) (data : bytes) :
  len data = 4 -> bytes_of_uint o 4 (uint_of_bytes o data) = data.
Proof.
  intros H4. replace 4%nat with (length data) by (unfold len in H4; lia).
  apply bytes_of_uint_of_bytes.
Qed.

Lemma uint32_range (o : ByteOrder) (data : bytes) :
  len data = 4 -> 0 <= uint_of_bytes o data <= 4294967295.
Proof.
  intros H4. pose proof (uint_of_bytes_range o data) as H.
  rewrite H4 in H. change (256 ^ 4) with 4294967296 in H. lia.
Qed.

(** X1.  The value on a Uint32 line of a report, scanned for as an int in
    the same file, is found at the offset that was analyzed, under the
    tag of the same byte order. *)
Theorem shown_uint32_is_found (P : Z -> bool) (content : bytes)
    (offset byte_count : Z) (out : list OutLine) (o : ByteOrder) (n : Z) :
  analyze_offset P content offset byte_count = Ok out ->
  In (Interp (uint32_label o) (IntVal n)) out ->
  exists ms,
    scan_for_value content (PyInt n) "int" = Ok ms
    /\ In (offset, uint32_tag o) ms.
Proof.
  intros Ha Hin.
  destruct (analyze_offset_ok _ _ _ _ _ Ha) as (data & Hr & ->).
  apply In_interp_report, width_lines_inv in Hin.
  destruct Hin as [(H4 & Hc) | [(_ & Hc) | (_ & Hc)]].
  - destruct Hc as [(o' & Hl & _) | [(o' & Hl & Hv) | (o' & Hl & _)]];
      try (destruct o, o'; discriminate Hl).
    assert (o' = o) as -> by (destruct o, o'; try discriminate Hl; reflexivity).
    injection Hv as ->.
    destruct (window_in_content _ _ _ _ Hr H4) as (Ho & Hs).
    eexists. split; [apply scan_int_value, uint32_range, H4|].
    apply in_or_app.
    destruct o; [left | right]; apply In_scan_pass;
      (split; [reflexivity|]); (split; [exact Ho|]);
      rewrite Hs; symmetry; now apply four_bytes_back.
  - destruct Hc as [(Hl & _) | (Hl & _)]; destruct o; discriminate Hl.
  - destruct Hc as [(Hl & _) | [(Hl & _) | (Hl & _)]]; destruct o;
      discriminate Hl.
Qed.

Lemma shown_uint32_is_found_witness :
  exists out ms,
    analyze_offset (fun _ => true) [x41; x78; x56; x34; x12; x42] 1 4 = Ok out
    /\ In (Interp Uint32_BE (IntVal 2018915346)) out
    /\ scan_for_value [x41; x78; x56; x34; x12; x42] (PyInt 2018915346) "int"
       = Ok ms
    /\ In (1, uint32_be) ms.
Proof.
  destruct (analyze_offset (fun _ => true) [x41; x78; x56; x34; x12; x42] 1 4)
    as [out|e] eqn:Ha; [|vm_compute in Ha; discriminate].
  assert (Hin : In (Interp (uint32_label BigEndian) (IntVal 2018915346)) out).
  { vm_compute in Ha. injection Ha as <-. cbn [uint32_label In]. tauto. }
  destruct (shown_uint32_is_found _ _ _ _ _ BigEndian _ Ha Hin) as (ms & Hs & Hm).
  exists out, ms. repeat split; assumption.
Defined.

Lemma no_overflow_after_widen (b : Z) :
  0 <= b < 4294967296 -> is_nan binary32 b = false ->
  float32_overflows (convert binary32 binary64 b) = false.
Proof.
  intros Hb Hn. unfold float32_overflows. rewrite (narrow_widen b Hb Hn).
  destruct (is_inf binary32 b) eqn:Hi; [|reflexivity].
  now rewrite (widen_inf b Hi).
Qed.

Lemma not_nan_before_widen (b : Z) :
  is_nan binary64 (convert binary32 binary64 b) = false ->
  is_nan binary32 b = false.
Proof.
  intros H. destruct (is_nan binary32 b) eqn:E; [|reflexivity].
  rewrite (widen_nan b E) in H. discriminate.
Qed.

(** X2.  The value on a Float line of a report, when it is not a NaN,
    scanned for as a float in the same file, is found at the offset that
    was analyzed, under the tag of the same byte order: packing the shown
    double gives back the four bytes of the window. *)
Theorem shown_float_is_found (P : Z -> bool) (content : bytes)
    (offset byte_count : Z) (out : list OutLine) (o : ByteOrder) (x : Z) :
  analyze_offset P content offset byte_count = Ok out ->
  In (Interp (float_label o) (FloatVal x)) out ->
  is_nan binary64 x = false ->
  exists ms,
    scan_for_value content (PyFloat x) "float" = Ok ms
    /\ In (offset, float_tag o) ms
    /\ struct_pack_f o x = Ok (py_slice content offset (offset + 4)).
Proof.
  intros Ha Hin Hx.
  destruct (analyze_offset_ok _ _ _ _ _ Ha) as (data & Hr & ->).
  apply In_interp_report, width_lines_inv in Hin.
  destruct Hin as [(H4 & Hc) | [(_ & Hc) | (_ & Hc)]].
  - destruct Hc as [(o' & Hl & Hv) | [(o' & Hl & _) | (o' & Hl & _)]];
      try (destruct o, o'; discriminate Hl).
    assert (o' = o) as -> by (destruct o, o'; try discriminate Hl; reflexivity).
    injection Hv as ->.
    destruct (window_in_content _ _ _ _ Hr H4) as (Ho & Hs).
    pose proof (uint32_range o data H4) as Hb.
    pose proof (not_nan_before_widen _ Hx) as Hn.
    assert (Hb' : 0 <= uint_of_bytes o data < 4294967296) by lia.
    pose proof (no_overflow_after_widen _ Hb' Hn) as Hov.
    pose proof (narrow_widen _ Hb' Hn) as Hnw.
    eexists. split; [apply scan_float_value, Hov|]. split.
    + apply in_or_app. rewrite Hnw.
      destruct o; [left | right]; apply In_scan_pass;
        (split; [reflexivity|]); (split; [exact Ho|]);
        rewrite Hs; symmetry; now apply four_bytes_back.
    + rewrite pack_f_cases, Hov, Hnw, Hs. f_equal. now apply four_bytes_back.
  - destruct Hc as [(Hl & _) | (Hl & _)]; destruct o; discriminate Hl.
  - destruct Hc as [(Hl & _) | [(Hl & _) | (Hl & _)]]; destruct o;
      discriminate Hl.
Qed.

Lemma shown_float_is_found_witness :
  exists out ms,
    analyze_offset (fun _ => true) [x41; x00; x00; x70; x42; x42] 1 4 = Ok out
    /\ In (Interp Float_LE (FloatVal 4633641066610819072)) out
    /\ is_nan binary64 4633641066610819072 = false
    /\ scan_for_value [x41; x00; x00; x70; x42; x42]
                      (PyFloat 4633641066610819072) "float" = Ok ms
    /\ In (1, float_le) ms.
Proof.
  destruct (analyze_offset (fun _ => true) [x41; x00; x00; x70; x42; x42] 1 4)
    as [out|e] eqn:Ha; [|vm_compute in Ha; discriminate].
  assert (Hin : In (Interp (float_label LittleEndian)
                           (FloatVal 4633641066610819072)) out).
  { vm_compute in Ha. injection Ha as <-. cbn [float_label In]. tauto. }
  assert (Hx : is_nan binary64 4633641066610819072 = false)
    by (vm_compute; reflexivity).
  destruct (shown_float_is_found _ _ _ _ _ LittleEndian _ Ha Hin Hx)
    as (ms & Hs & Hm & _).
  exists out, ms. repeat split; assumption.
Defined.

(** ** From a match to a report *)

Lemma seek_read_inside (content : bytes) (k : Z) :
  0 <= k <= len content - 4 ->
  seek_read content k 4 = Ok (py_slice content k (k + 4))
  /\ len (py_slice content k (k + 4)) = 4.
Proof.
  intros Hk. destruct (slice_window content k Hk) as [Hs Hl].
  split; [|unfold len; lia].
  unfold seek_read. destruct (Z.ltb_spec k 0); [lia|].
  rewrite Hs. reflexivity.
Qed.

Lemma int_target_inv (o : ByteOrder) (t : PyObj) (tb : bytes) :
  int_target o t = Ok tb ->
  exists n, py_int t = Ok n /\ 0 <= n <= 4294967295
            /\ tb = bytes_of_uint o 4 n.
Proof.
  unfold int_target. destruct (py_int t) as [n|e]; cbn [bind]; [|discriminate].
  destruct (pack_I_cases o n) as [[Hn ->] | [_ ->]]; [|discriminate].
  intros E. injection E as <-. now exists n.
Qed.

Lemma float_target_inv (o : ByteOrder) (t : PyObj) (tb : bytes) :
  float_target o t = Ok tb ->
  exists x, py_float t = Ok x /\ float32_overflows x = false
            /\ tb = bytes_of_uint o 4 (convert binary64 binary32 x).
Proof.
  unfold float_target. destruct (py_float t) as [x|e]; cbn [bind]; [|discriminate].
  rewrite pack_f_cases. destruct (float32_overflows x) eqn:Hov; [discriminate|].
  intros E. injection E as <-. now exists x.
Qed.

Lemma rev_le_is_be (n : nat) (v : Z) :
  rev (bytes_of_uint LittleEndian n v) = bytes_of_uint BigEndian n v.
Proof. reflexivity. Qed.

(** The window a match of an int scan points at, and the target. *)
Lemma int_match_window (content : bytes) (t : PyObj) (ms : list (Z * Encoding))
    (k : Z) (o : ByteOrder) :
  scan_for_value content t "int" = Ok ms ->
  In (k, uint32_tag o) ms ->
  exists n,
    py_int t = Ok n /\ 0 <= n <= 4294967295
    /\ 0 <= k <= len content - 4
    /\ py_slice content k (k + 4) = bytes_of_uint o 4 n.
Proof.
  intros Hs Hin. rewrite scan_for_value_spec in Hs.
  destruct (encoded_passes "int" t) as [ps|e] eqn:Hp; [|discriminate].
  cbn [bind] in Hs. injection Hs as <-.
  destruct (encoded_passes_cases _ _ _ Hp)
    as [(tb & Hv & _) | [(tb & _ & Ht & ->) | (_ & Hv & _)]];
    [discriminate Hv | | contradiction].
  destruct (int_target_inv _ _ _ Ht) as (n & Hn & Hr & ->).
  exists n. split; [exact Hn|]. split; [exact Hr|].
  cbn [flat_map fst snd] in Hin. rewrite app_nil_r in Hin.
  apply in_app_or in Hin.
  destruct Hin as [Hin|Hin]; apply In_scan_pass in Hin;
    destruct Hin as (Ht' & Hk & Hsl); destruct o; try discriminate Ht';
    split; assumption.
Qed.

Lemma float_match_window (content : bytes) (t : PyObj)
    (ms : list (Z * Encoding)) (k : Z) (o : ByteOrder) :
  scan_for_value content t "float" = Ok ms ->
  In (k, float_tag o) ms ->
  exists x,
    py_float t = Ok x /\ float32_overflows x = false
    /\ 0 <= k <= len content - 4
    /\ py_slice content k (k + 4)
       = bytes_of_uint o 4 (convert binary64 binary32 x).
Proof.
  intros Hs Hin. rewrite scan_for_value_spec in Hs.
  destruct (encoded_passes "float" t) as [ps|e] eqn:Hp; [|discriminate].
  cbn [bind] in Hs. injection Hs as <-.
  destruct (encoded_passes_cases _ _ _ Hp)
    as [(tb & _ & Ht & ->) | [(tb & Hv & _) | (Hv & _)]];
    [| discriminate Hv | contradiction].
  destruct (float_target_inv _ _ _ Ht) as (x & Hx & Hov & ->).
  exists x. split; [exact Hx|]. split; [exact Hov|].
  cbn [flat_map fst snd] in Hin. rewrite app_nil_r in Hin.
  apply in_app_or in Hin.
  destruct Hin as [Hin|Hin]; apply In_scan_pass in Hin;
    destruct Hin as (Ht' & Hk & Hsl); destruct o; try discriminate Ht';
    split; assumption.
Qed.

Lemma four_line (P : Z -> bool) (content : bytes) (k : Z) (l : OutLine) :
  0 <= k <= len content - 4 ->
  In l (width_lines (py_slice content k (k + 4))) ->
  exists out,
    analyze_offset P content k 4 = Ok out /\ In l out
    /\ forall g r, ~ In (Warning_only_read g r) out.
Proof.
  intros Hk Hl. destruct (seek_read_inside content k Hk) as [Hr H4].
  eexists. split; [apply analyze_offset_spec, Hr|]. split.
  - now apply In_report.
  - intros g r Hin. unfold warning in Hin. rewrite H4 in Hin.
    cbn [Z.ltb Z.compare app] in Hin.
    destruct Hin as [Hin|[Hin|Hin]]; try discriminate Hin.
    apply in_app_or in Hin. destruct Hin as [Hin|Hin].
    + unfold width_lines in Hin. rewrite H4 in Hin.
      cbn [Z.eqb Pos.eqb In] in Hin.
      repeat (destruct Hin as [Hin|Hin]; [discriminate Hin|]). exact Hin.
    + unfold utf8_line in Hin.
      destruct (utf8_decode _) as [text|e]; [|easy].
      destruct (isprintable P text); cbn [In] in Hin; intuition discriminate.
Qed.

(** X3.  Every match of an int scan, analyzed at its offset with four
    bytes, is read in full (no short-read warning) and shows the target
    value on the Uint32 line of the byte order of its tag. *)
Theorem int_match_is_shown (P : Z -> bool) (content : bytes) (t : PyObj)
    (ms : list (Z * Encoding)) (k : Z) (o : ByteOrder) :
  scan_for_value content t "int" = Ok ms ->
  In (k, uint32_tag o) ms ->
  exists n out,
    py_int t = Ok n
    /\ analyze_offset P content k 4 = Ok out
    /\ In (Interp (uint32_label o) (IntVal n)) out
    /\ forall g r, ~ In (Warning_only_read g r) out.
Proof.
  intros Hs Hin.
  destruct (int_match_window _ _ _ _ _ Hs Hin) as (n & Hn & Hr & Hk & Hsl).
  destruct (four_line P content k (Interp (uint32_label o) (IntVal n)) Hk)
    as (out & Ho & Hl & Hw).
  - destruct (seek_read_inside content k Hk) as [_ H4].
    unfold width_lines. rewrite H4. cbn [Z.eqb Pos.eqb].
    rewrite Hsl.
    destruct o; cbn [uint32_label];
      [rewrite (uint_of_bytes_of_uint LittleEndian)
      |rewrite (uint_of_bytes_of_uint BigEndian)];
      change (256 ^ Z.of_nat 4) with 4294967296;
      rewrite Z.mod_small by lia; cbn [In]; tauto.
  - exists n, out. repeat split; assumption.
Qed.


(** X4.  Every match of a float scan, analyzed at its offset with four
    bytes, is read in full and shows, on the Float line of the byte order
    of its tag, the target rounded to a C float; for a target that a C
    float holds exactly that is the target itself. *)
Theorem float_match_is_shown (P : Z -> bool) (content : bytes) (t : PyObj)
    (ms : list (Z * Encoding)) (k : Z) (o : ByteOrder) :
  scan_for_value content t "float" = Ok ms ->
  In (k, float_tag o) ms ->
  exists x out,
    py_float t = Ok x
    /\ analyze_offset P content k 4 = Ok out
    /\ In (Interp (float_label o)
                  (FloatVal (convert binary32 binary64
                               (convert binary64 binary32 x)))) out
    /\ (forall g r, ~ In (Warning_only_read g r) out)
    /\ (forall b, 0 <= b < 4294967296 -> is_nan binary32 b = false ->
                  x = convert binary32 binary64 b ->
                  convert binary32 binary64 (convert binary64 binary32 x) = x).
Proof.
  intros Hs Hin.
  destruct (float_match_window _ _ _ _ _ Hs Hin) as (x & Hx & Hov & Hk & Hsl).
  destruct (four_line P content k
              (Interp (float_label o)
                 (FloatVal (convert binary32 binary64
                              (convert binary64 binary32 x)))) Hk)
    as (out & Ho & Hl & Hw).
  - destruct (seek_read_inside content k Hk) as [_ H4].
    unfold width_lines. rewrite H4. cbn [Z.eqb Pos.eqb].
    rewrite Hsl. pose proof (narrow_range x) as Hr.
    destruct o; cbn [float_label];
      [rewrite (uint_of_bytes_of_uint LittleEndian)
      |rewrite (uint_of_bytes_of_uint BigEndian)];
      change (256 ^ Z.of_nat 4) with 4294967296;
      rewrite Z.mod_small by lia; cbn [In]; tauto.
  - exists x, out. repeat split; try assumption.
    intros b Hb Hn ->. now rewrite narrow_widen.
Qed.

Lemma float_match_is_shown_witness :
  exists ms out,
    scan_for_value [x41; x42; x70; x00; x00] (PyStr "60.0") "float" = Ok ms
    /\ In (1, float_be) ms
    /\ analyze_offset (fun _ => true) [x41; x42; x70; x00; x00] 1 4 = Ok out
    /\ In (Interp Float_BE (FloatVal 4633641066610819072)) out.
Proof.
  destruct (scan_for_value [x41; x42; x70; x00; x00] (PyStr "60.0") "float")
    as [ms|e] eqn:Hs; [|vm_compute in Hs; discriminate].
  assert (Hin : In (1, float_tag BigEndian) ms)
    by (vm_compute in Hs; injection Hs as <-; cbn; tauto).
  destruct (float_match_is_shown (fun _ => true) _ _ _ _ _ Hs Hin)
    as (x & out & Hx & Ho & Hl & _).
  exists ms, out. split; [reflexivity|]. split; [exact Hin|].
  split; [exact Ho|].
  vm_compute in Hx. injection Hx as <-.
  vm_compute in Hl. vm_compute. exact Hl.
Defined.

Lemma int_match_is_shown_witness :
  exists ms out,
    scan_for_value [x41; x2a; x00; x00; x00] (PyStr "42") "int" = Ok ms
    /\ In (1, uint32_le) ms
    /\ analyze_offset (fun _ => true) [x41; x2a; x00; x00; x00] 1 4 = Ok out
    /\ In (Interp Uint32_LE (IntVal 42)) out.
Proof.
  destruct (scan_for_value [x41; x2a; x00; x00; x00] (PyStr "42") "int")
    as [ms|e] eqn:Hs; [|vm_compute in Hs; discriminate].
  assert (Hin : In (1, uint32_tag LittleEndian) ms)
    by (vm_compute in Hs; injection Hs as <-; cbn; tauto).
  destruct (int_match_is_shown (fun _ => true) _ _ _ _ _ Hs Hin)
    as (n & out & Hn & Ho & Hl & _).
  exists ms, out. split; [reflexivity|]. split; [exact Hin|].
  split; [exact Ho|].
  vm_compute in Hn. injection Hn as <-. exact Hl.
Defined.


(** ** Values and ranges of the interpretation lines *)

Lemma label_orders (o o' : ByteOrder) :
  (uint32_label o = uint32_label o' -> o = o')
  /\ (int32_label o = int32_label o' -> o = o')
  /\ (float_label o = float_label o' -> o = o')
  /\ uint32_label o <> int32_label o'
  /\ uint32_label o <> float_label o'
  /\ int32_label o <> float_label o'.
Proof. destruct o, o'; cbn; repeat split; congruence. Qed.

(** X5.  On one report, the Int32 value is the Uint32 value of the same
    byte order read as two's complement: both are in range, they agree
    when the Uint32 value is below 2^31 and differ by 2^32 otherwise; a
    negative Int32 value cannot be scanned for as an int, the scan raises
    on every buffer. *)
Theorem int32_line_is_uint32_signed (P : Z -> bool) (content : bytes)
    (offset byte_count : Z) (out : list OutLine) (o : ByteOrder) (u i : Z) :
  analyze_offset P content offset byte_count = Ok out ->
  In (Interp (uint32_label o) (IntVal u)) out ->
  In (Interp (int32_label o) (IntVal i)) out ->
  0 <= u <= 4294967295
  /\ -2147483648 <= i <= 2147483647
  /\ i = (if u <? 2147483648 then u else u - 4294967296)
  /\ (i < 0 ->
      forall buffer,
        scan_for_value buffer (PyInt i) "int" = Raise struct_error).
Proof.
  intros Ha Hu Hi.
  destruct (analyze_offset_ok _ _ _ _ _ Ha) as (data & Hr & ->).
  apply In_interp_report, width_lines_inv in Hu.
  apply In_interp_report, width_lines_inv in Hi.
  destruct Hu as [(H4 & Hc) | [(_ & Hc) | (_ & Hc)]];
    [| destruct Hc as [(Hl & _) | (Hl & _)]; destruct o; discriminate Hl
     | destruct Hc as [(Hl & _) | [(Hl & _) | (Hl & _)]]; destruct o;
       discriminate Hl].
  destruct Hc as [(o' & Hl & _) | [(o' & Hl & Hv) | (o' & Hl & _)]];
    try (destruct o, o'; discriminate Hl).
  apply (proj1 (label_orders o o')) in Hl. subst o'. injection Hv as ->.
  destruct Hi as [(_ & Hc) | [(H2 & _) | (H1 & _)]]; [|lia|lia].
  destruct Hc as [(o' & Hl & _) | [(o' & Hl & _) | (o' & Hl & Hv)]];
    try (destruct o, o'; discriminate Hl).
  apply (proj1 (proj2 (label_orders o o'))) in Hl. subst o'. injection Hv as ->.
  pose proof (uint32_range o data H4) as Hrange.
  unfold to_signed. change (2 ^ (32 - 1)) with 2147483648.
  change (2 ^ 32) with 4294967296.
  split; [exact Hrange|].
  destruct (Z.ltb_spec (uint_of_bytes o data) 2147483648);
    (split; [lia|]); (split; [reflexivity|]); intros Hneg; [lia|].
  intros buffer. unfold scan_for_value.
  change (String.eqb "int" "float") with false.
  change (String.eqb "int" "int") with true. cbv iota.
  unfold py_int. cbn [bind].
  destruct (pack_I_cases LittleEndian (uint_of_bytes o data - 4294967296))
    as [[Hn _] | [_ ->]]; [lia | reflexivity].
Qed.

Lemma int32_line_is_uint32_signed_witness :
  exists out,
    analyze_offset (fun _ => true) [xfe; xff; xff; xff] 0 4 = Ok out
    /\ In (Interp Uint32_LE (IntVal 4294967294)) out
    /\ In (Interp Int32_LE (IntVal (-2))) out
    /\ scan_for_value [xfe; xff; xff; xff] (PyInt (-2)) "int"
       = Raise struct_error.
Proof.
  destruct (analyze_offset (fun _ => true) [xfe; xff; xff; xff] 0 4)
    as [out|e] eqn:Ha; [|vm_compute in Ha; discriminate].
  assert (Hu : In (Interp (uint32_label LittleEndian) (IntVal 4294967294)) out)
    by (vm_compute in Ha; injection Ha as <-; cbn; tauto).
  assert (Hi : In (Interp (int32_label LittleEndian) (IntVal (-2))) out)
    by (vm_compute in Ha; injection Ha as <-; cbn; tauto).
  destruct (int32_line_is_uint32_signed _ _ _ _ _ _ _ _ Ha Hu Hi)
    as (_ & _ & _ & Hs).
  exists out. split; [reflexivity|]. split; [exact Hu|]. split; [exact Hi|].
  apply Hs. lia.
Defined.

Lemma len_two (data : bytes) : len data = 2 -> exists a b, data = [a; b].
Proof.
  destruct data as [|a [|b [|c data]]]; unfold len; cbn [length]; try lia.
  intros _. now exists a, b.
Qed.

(** X6.  On a report of a two-byte window the two Uint16 values are
    within 0 .. 65535 and each is the other with its two bytes swapped. *)
Theorem uint16_lines_swapped (P : Z -> bool) (content : bytes)
    (offset byte_count : Z) (out : list OutLine) (a b : Z) :
  analyze_offset P content offset byte_count = Ok out ->
  In (Interp Uint16_LE (IntVal a)) out ->
  In (Interp Uint16_BE (IntVal b)) out ->
  0 <= a <= 65535 /\ 0 <= b <= 65535
  /\ b = 256 * (a mod 256) + a / 256
  /\ a = 256 * (b mod 256) + b / 256.
Proof.
  intros Ha Hl Hb.
  destruct (analyze_offset_ok _ _ _ _ _ Ha) as (data & Hr & ->).
  apply In_interp_report, width_lines_inv in Hl.
  apply In_interp_report, width_lines_inv in Hb.
  destruct Hl as [(_ & Hc) | [(H2 & Hc) | (_ & Hc)]];
    [ destruct Hc as [(o' & Hl & _) | [(o' & Hl & _) | (o' & Hl & _)]];
      destruct o'; discriminate Hl
    | | destruct Hc as [(Hl & _) | [(Hl & _) | (Hl & _)]]; discriminate Hl].
  destruct Hc as [(_ & Hv) | (Hl & _)]; [|discriminate Hl]. injection Hv as ->.
  destruct Hb as [(H4 & _) | [(_ & Hc) | (H1 & _)]]; [lia| |lia].
  destruct Hc as [(Hl & _) | (_ & Hv)]; [discriminate Hl|]. injection Hv as ->.
  destruct (len_two data H2) as (x & y & ->).
  unfold uint_of_bytes. cbn [order_bytes rev app le_value].
  pose proof (byte_to_Z_range x). pose proof (byte_to_Z_range y).
  repeat split; try lia; Z.div_mod_to_equations; lia.
Qed.

Lemma uint16_lines_swapped_witness :
  exists out,
    analyze_offset (fun _ => true) [x34; x12] 0 2 = Ok out
    /\ In (Interp Uint16_LE (IntVal 4660)) out
    /\ In (Interp Uint16_BE (IntVal 13330)) out
    /\ 13330 = 256 * (4660 mod 256) + 4660 / 256.
Proof.
  destruct (analyze_offset (fun _ => true) [x34; x12] 0 2)
    as [out|e] eqn:Ha; [|vm_compute in Ha; discriminate].
  assert (Hl : In (Interp Uint16_LE (IntVal 4660)) out)
    by (vm_compute in Ha; injection Ha as <-; cbn; tauto).
  assert (Hb : In (Interp Uint16_BE (IntVal 13330)) out)
    by (vm_compute in Ha; injection Ha as <-; cbn; tauto).
  destruct (uint16_lines_swapped _ _ _ _ _ _ _ Ha Hl Hb) as (_ & _ & Hs & _).
  exists out. repeat split; assumption.
Defined.


(** ** The text decoding *)

Lemma in_range_spec (lo hi : Z) (b : byte) :
  in_range lo hi b = true <-> lo <= byte_to_Z b <= hi.
Proof. unfold in_range. rewrite andb_true_iff, !Z.leb_le. tauto. Qed.

(** One step of the decoder: a character below 128 from one byte, or a
    character from a lead byte and one to three continuation bytes, all of
    them 128 or more; the character is then a Unicode scalar value of 128
    or more. *)
Lemma utf8_decode_step (data : bytes) (text : list Z) :
  utf8_decode data = Ok text ->
  (data = [] /\ text = [])
  \/ (exists b r t,
        data = b :: r /\ byte_to_Z b < 128
        /\ text = byte_to_Z b :: t /\ utf8_decode r = Ok t)
  \/ (exists b bs r c t,
        data = b :: bs ++ r
        /\ 128 <= byte_to_Z b
        /\ Forall (fun x => 128 <= byte_to_Z x) bs
        /\ (1 <= length bs <= 3)%nat
        /\ 128 <= c <= 1114111 /\ ~ 55296 <= c <= 57343
        /\ text = c :: t /\ utf8_decode r = Ok t).
Proof.
  destruct data as [|b0 r0]; [intros H; injection H as <-; now left|].
  change (utf8_decode (b0 :: r0)) with
    (let c0 := byte_to_Z b0 in
     if c0 <? 128 then t <- utf8_decode r0 ;; Ok (c0 :: t)
     else if (194 <=? c0) && (c0 <=? 223) then
       match r0 with
       | b1 :: r1 =>
           if in_range 128 191 b1 then
             t <- utf8_decode r1 ;; Ok ((c0 - 192) * 64 + cont b1 :: t)
           else Raise UnicodeDecodeError
       | _ => Raise UnicodeDecodeError
       end
     else if (224 <=? c0) && (c0 <=? 239) then
       match r0 with
       | b1 :: b2 :: r2 =>
           let lo := if c0 =? 224 then 160 else 128 in
           let hi := if c0 =? 237 then 159 else 191 in
           if in_range lo hi b1 && in_range 128 191 b2 then
             t <- utf8_decode r2 ;;
             Ok ((c0 - 224) * 4096 + cont b1 * 64 + cont b2 :: t)
           else Raise UnicodeDecodeError
       | _ => Raise UnicodeDecodeError
       end
     else if (240 <=? c0) && (c0 <=? 244) then
       match r0 with
       | b1 :: b2 :: b3 :: r3 =>
           let lo := if c0 =? 240 then 144 else 128 in
           let hi := if c0 =? 244 then 143 else 191 in
           if in_range lo hi b1 && in_range 128 191 b2
              && in_range 128 191 b3 then
             t <- utf8_decode r3 ;;
             Ok ((c0 - 240) * 262144 + cont b1 * 4096 + cont b2 * 64
                 + cont b3 :: t)
           else Raise UnicodeDecodeError
       | _ => Raise UnicodeDecodeError
       end
     else Raise UnicodeDecodeError).
  cbv zeta. unfold cont.
  destruct (Z.ltb_spec (byte_to_Z b0) 128) as [Hlt|Hge].
  { destruct (utf8_decode r0) as [t|e] eqn:Ht; cbn [bind]; [|discriminate].
    intros H. injection H as <-. right. left. now exists b0, r0, t. }
  destruct ((194 <=? byte_to_Z b0) && (byte_to_Z b0 <=? 223)) eqn:H2.
  { apply andb_true_iff in H2. rewrite !Z.leb_le in H2.
    destruct r0 as [|b1 r1]; [discriminate|].
    destruct (in_range 128 191 b1) eqn:R1; [|discriminate].
    apply in_range_spec in R1.
    destruct (utf8_decode r1) as [t|e] eqn:Ht; cbn [bind]; [|discriminate].
    intros H. injection H as <-. right. right.
    exists b0, [b1], r1, ((byte_to_Z b0 - 192) * 64 + (byte_to_Z b1 - 128)), t.
    repeat split; try reflexivity; try assumption; cbn [length]; try lia;
      try (constructor; [lia | constructor]). }
  destruct ((224 <=? byte_to_Z b0) && (byte_to_Z b0 <=? 239)) eqn:H3.
  { apply andb_true_iff in H3. rewrite !Z.leb_le in H3.
    destruct r0 as [|b1 [|b2 r2]]; try discriminate.
    destruct (in_range _ _ b1 && in_range 128 191 b2) eqn:R; [|discriminate].
    apply andb_true_iff in R. destruct R as [R1 R2].
    apply in_range_spec in R1, R2.
    destruct (utf8_decode r2) as [t|e] eqn:Ht; cbn [bind]; [|discriminate].
    intros H. injection H as <-. right. right.
    exists b0, [b1; b2], r2,
      ((byte_to_Z b0 - 224) * 4096 + (byte_to_Z b1 - 128) * 64
       + (byte_to_Z b2 - 128)), t.
    destruct (Z.eqb_spec (byte_to_Z b0) 224);
      destruct (Z.eqb_spec (byte_to_Z b0) 237);
      repeat split; try reflexivity; try assumption; cbn [length]; try lia;
      try (constructor; [lia | constructor; [lia | constructor]]). }
  destruct ((240 <=? byte_to_Z b0) && (byte_to_Z b0 <=? 244)) eqn:H4;
    [|discriminate].
  apply andb_true_iff in H4. rewrite !Z.leb_le in H4.
  destruct r0 as [|b1 [|b2 [|b3 r3]]]; try discriminate.
  destruct (in_range _ _ b1 && in_range 128 191 b2 && in_range 128 191 b3)
    eqn:R; [|discriminate].
  apply andb_true_iff in R. destruct R as [R R3].
  apply andb_true_iff in R. destruct R as [R1 R2].
  apply in_range_spec in R1, R2, R3.
  destruct (utf8_decode r3) as [t|e] eqn:Ht; cbn [bind]; [|discriminate].
  intros H. injection H as <-. right. right.
  exists b0, [b1; b2; b3], r3,
    ((byte_to_Z b0 - 240) * 262144 + (byte_to_Z b1 - 128) * 4096
     + (byte_to_Z b2 - 128) * 64 + (byte_to_Z b3 - 128)), t.
  destruct (Z.eqb_spec (byte_to_Z b0) 240);
    destruct (Z.eqb_spec (byte_to_Z b0) 244);
    repeat split; try reflexivity; try assumption; cbn [length]; try lia;
    try (constructor; [lia | constructor; [lia | constructor; [lia | constructor]]]).
Qed.

(** Facts about a decoded text follow by induction on the length of the
    bytes, one decoder step at a time. *)
Lemma utf8_decode_facts (n : nat) :
  forall data text,
    (length data <= n)%nat ->
    utf8_decode data = Ok text ->
    (length text <= length data)%nat
    /\ Forall (fun c => 0 <= c <= 1114111 /\ ~ 55296 <= c <= 57343) text
    /\ (forall b, In b data -> byte_to_Z b < 128 -> In (byte_to_Z b) text).
Proof.
  induction n as [|n IH]; intros data text Hn Hd.
  - destruct data; [|cbn in Hn; lia].
    injection Hd as <-.
    split; [cbn; lia | split; [constructor | intros b []]].
  - destruct (utf8_decode_step data text Hd)
      as [(-> & ->) | [(b & r & t & -> & Hb & -> & Ht)
                      | (b & bs & r & c & t & -> & Hb & Hbs & Hl & Hc & Hs
                         & -> & Ht)]].
    + split; [cbn; lia | split; [constructor | intros b []]].
    + cbn [length] in Hn. destruct (IH r t ltac:(lia) Ht) as (L & F & A).
      split; [cbn [length]; lia|]. split.
      * constructor; [|exact F]. pose proof (byte_to_Z_range b). lia.
      * intros x [<- | Hx] Hx'; [now left | right; now apply A].
    + cbn [length] in Hn. rewrite length_app in Hn.
      destruct (IH r t ltac:(lia) Ht) as (L & F & A).
      split; [cbn [length]; rewrite length_app; lia|]. split.
      * constructor; [lia | exact F].
      * intros x [<- | Hx] Hx'; [lia|].
        apply in_app_or in Hx. destruct Hx as [Hx | Hx].
        -- rewrite Forall_forall in Hbs. specialize (Hbs x Hx). lia.
        -- right. now apply A.
Qed.

Lemma utf8_decode_ascii (data : bytes) :
  Forall (fun b => byte_to_Z b < 128) data ->
  utf8_decode data = Ok (map byte_to_Z data).
Proof.
  induction 1 as [|b data Hb _ IH]; [reflexivity|].
  unfold utf8_decode; fold utf8_decode.
  destruct (Z.ltb_spec (byte_to_Z b) 128); [|lia].
  rewrite IH. reflexivity.
Qed.


(** ** Reading the window: errors and lengths *)

Lemma seek_read_cases (content : bytes) (offset byte_count : Z) :
  (offset < 0 /\ seek_read content offset byte_count = Raise OSError)
  \/ (0 <= offset /\ byte_count < -1
      /\ seek_read content offset byte_count = Raise ValueError)
  \/ (0 <= offset /\ -1 <= byte_count
      /\ exists data,
           seek_read content offset byte_count = Ok data
           /\ len data
              = if byte_count =? -1 then Z.max 0 (len content - offset)
                else Z.max 0 (Z.min byte_count (len content - offset))).
Proof.
  unfold seek_read.
  destruct (Z.ltb_spec offset 0); [left; auto|].
  destruct (Z.ltb_spec byte_count (-1)); [right; left; auto|].
  right. right. split; [assumption|]. split; [assumption|].
  eexists. split; [reflexivity|].
  destruct (Z.eqb_spec byte_count (-1)); unfold len.
  - rewrite length_skipn. lia.
  - rewrite length_firstn, length_skipn.
    destruct (Nat.min_spec (Z.to_nat byte_count)
                (length content - Z.to_nat offset)) as [[? ->] | [? ->]]; lia.
Qed.


(** X8.  A report carries the short-read warning exactly when fewer bytes
    were left after the offset than were requested, and the warning then
    gives the number of bytes left and the number requested; a byte count
    of -1 (read to the end) never warns. *)
Theorem warning_iff_short (P : Z -> bool) (content : bytes)
    (offset byte_count : Z) (out : list OutLine) (g r : Z) :
  analyze_offset P content offset byte_count = Ok out ->
  (In (Warning_only_read g r) out
   <-> r = byte_count /\ g = Z.max 0 (len content - offset) /\ g < byte_count).
Proof.
  intros Ha.
  destruct (analyze_offset_ok _ _ _ _ _ Ha) as (data & Hr & ->).
  destruct (seek_read_cases content offset byte_count)
    as [(_ & Hr') | [(_ & _ & Hr') | (Ho & Hb & data' & Hr' & Hl)]];
    try (rewrite Hr in Hr'; discriminate).
  rewrite Hr in Hr'. injection Hr' as <-.
  assert (Hw : In (Warning_only_read g r)
                  (warning data byte_count ++ [Heading offset; Raw_Bytes data]
                   ++ width_lines data ++ utf8_line P data)
               <-> In (Warning_only_read g r) (warning data byte_count)).
  { split; [|intros H; apply in_or_app; now left].
    intros Hin. apply in_app_or in Hin. destruct Hin as [Hin|Hin]; [exact Hin|].
    exfalso. cbn [app In] in Hin.
    destruct Hin as [Hin|[Hin|Hin]]; try discriminate Hin.
    apply in_app_or in Hin. destruct Hin as [Hin|Hin].
    - unfold width_lines in Hin.
      destruct (len data =? 4); [pick_line Hin|].
      destruct (len data =? 2); [pick_line Hin|].
      destruct (len data =? 1); [|destruct Hin].
      destruct (in_range 32 126 (nth 0 data x00)); pick_line Hin.
    - unfold utf8_line in Hin. destruct (utf8_decode data) as [t|e]; [|easy].
      destruct (isprintable P t); pick_line Hin. }
  rewrite Hw. unfold warning.
  destruct (Z.eqb_spec byte_count (-1)) as [Hm|Hm].
  - destruct (Z.ltb_spec (len data) byte_count); [lia|].
    split; [intros [] | lia].
  - destruct (Z.ltb_spec (len data) byte_count) as [Hlt|Hge]; cbn [In].
    + split.
      * intros [E|[]]. injection E as <- <-. lia.
      * intros (-> & -> & Hg). left. f_equal. lia.
    + split; [intros [] | lia].
Qed.

Lemma warning_iff_short_witness :
  exists out,
    analyze_offset (fun _ => true) [x41; x42; x43] 2 4 = Ok out
    /\ In (Warning_only_read 1 4) out.
Proof.
  destruct (analyze_offset (fun _ => true) [x41; x42; x43] 2 4)
    as [out|e] eqn:Ha; [|vm_compute in Ha; discriminate].
  exists out. split; [reflexivity|].
  apply (warning_iff_short _ _ _ _ _ 1 4 Ha). vm_compute. repeat split.
Defined.

(** X9.  Every report shows the raw bytes of the window; it has
    interpretation lines, and their heading, exactly when the window has
    1, 2 or 4 bytes: a window of 0, 3, 5 or more bytes gets none. *)
Theorem lines_only_for_widths_1_2_4 (P : Z -> bool) (content : bytes)
    (offset byte_count : Z) (out : list OutLine) :
  analyze_offset P content offset byte_count = Ok out ->
  exists data,
    seek_read content offset byte_count = Ok data
    /\ In (Raw_Bytes data) out
    /\ (interp_lines out = []
        <-> len data <> 1 /\ len data <> 2 /\ len data <> 4)
    /\ (In Interpretations out
        <-> len data = 1 \/ len data = 2 \/ len data = 4).
Proof.
  intros Ha.
  destruct (analyze_offset_ok _ _ _ _ _ Ha) as (data & Hr & ->).
  exists data. split; [exact Hr|]. split.
  { apply in_or_app. right. cbn. auto. }
  rewrite report_interp_lines. split.
  - unfold width_lines.
    destruct (Z.eqb_spec (len data) 4); [split; [discriminate | lia]|].
    destruct (Z.eqb_spec (len data) 2); [split; [discriminate | lia]|].
    destruct (Z.eqb_spec (len data) 1); [|split; [lia | reflexivity]].
    destruct (in_range 32 126 (nth 0 data x00)); split; (discriminate || lia).
  - split.
    + intros Hin. apply in_app_or in Hin. destruct Hin as [Hin|Hin].
      { unfold warning in Hin. destruct (len data <? byte_count); pick_line Hin. }
      cbn [app In] in Hin.
      destruct Hin as [Hin|[Hin|Hin]]; try discriminate Hin.
      apply in_app_or in Hin. destruct Hin as [Hin|Hin].
      * unfold width_lines in Hin.
        destruct (Z.eqb_spec (len data) 4); [lia|].
        destruct (Z.eqb_spec (len data) 2); [lia|].
        destruct (Z.eqb_spec (len data) 1); [lia | destruct Hin].
      * unfold utf8_line in Hin. destruct (utf8_decode data) as [t|e]; [|easy].
        destruct (isprintable P t); pick_line Hin.
    + intros Hl. apply in_or_app. right. apply in_or_app. right.
      apply in_or_app. left. unfold width_lines.
      destruct (Z.eqb_spec (len data) 4); [now left|].
      destruct (Z.eqb_spec (len data) 2); [now left|].
      destruct (Z.eqb_spec (len data) 1); [now left | lia].
Qed.

Lemma lines_only_for_widths_1_2_4_witness :
  exists out,
    analyze_offset (fun _ => true) [x00; x01; x02; x03; x04] 1 3 = Ok out
    /\ In (Raw_Bytes [x01; x02; x03]) out
    /\ interp_lines out = [].
Proof.
  destruct (analyze_offset (fun _ => true) [x00; x01; x02; x03; x04] 1 3)
    as [out|e] eqn:Ha; [|vm_compute in Ha; discriminate].
  destruct (lines_only_for_widths_1_2_4 _ _ _ _ _ Ha)
    as (data & Hr & Hraw & Hi & _).
  vm_compute in Hr. injection Hr as <-.
  exists out. split; [reflexivity|]. split; [exact Hraw|].
  apply Hi. vm_compute. repeat split; discriminate.
Defined.


(** ** One byte, and text *)

Lemma utf8_decode_single (b : byte) :
  utf8_decode [b]
  = if byte_to_Z b <? 128 then Ok [byte_to_Z b] else Raise UnicodeDecodeError.
Proof.
  unfold utf8_decode.
  destruct (byte_to_Z b <? 128); [reflexivity|].
  destruct ((194 <=? byte_to_Z b) && (byte_to_Z b <=? 223)); [reflexivity|].
  destruct ((224 <=? byte_to_Z b) && (byte_to_Z b <=? 239)); [reflexivity|].
  destruct ((240 <=? byte_to_Z b) && (byte_to_Z b <=? 244)); reflexivity.
Qed.

(** X10.  The report of a one-byte window shows the byte as Uint8
    (0 .. 255) and as Int8 (the same value, less 256 from 128 on); the
    ASCII line and the text line are present together, exactly when the
    byte is in 32 .. 126, and both show that one character, whatever the
    Unicode table. *)
Theorem one_byte_report (P : Z -> bool) (content : bytes)
    (offset byte_count : Z) (b : byte) :
  seek_read content offset byte_count = Ok [b] ->
  let u := byte_to_Z b in
  exists out,
    analyze_offset P content offset byte_count = Ok out
    /\ 0 <= u <= 255
    /\ interp_lines out
       = [Interp Uint8 (IntVal u);
          Interp Int8 (IntVal (if u <? 128 then u else u - 256))]
         ++ (if (32 <=? u) && (u <=? 126)
             then [Interp ASCII (CharVal u)] else [])
    /\ (In (Interp ASCII (CharVal u)) out <-> 32 <= u <= 126)
    /\ (In (UTF8_String [u]) out <-> 32 <= u <= 126)
    /\ (forall text, In (UTF8_String text) out -> text = [u]).
Proof.
  intros Hr u. pose proof (byte_to_Z_range b) as Hu. fold u in Hu.
  eexists. split; [apply analyze_offset_spec, Hr|].
  split; [lia|].
  assert (Hw : width_lines [b]
               = [Interpretations; Interp Uint8 (IntVal u);
                  Interp Int8 (IntVal (if u <? 128 then u else u - 256))]
                 ++ (if (32 <=? u) && (u <=? 126)
                     then [Interp ASCII (CharVal u)] else [])).
  { reflexivity. }
  assert (Ht : utf8_line P [b]
               = if (32 <=? u) && (u <=? 126) then [UTF8_String [u]] else []).
  { unfold utf8_line. rewrite utf8_decode_single. fold u.
    destruct (Z.ltb_spec u 128).
    - cbn [isprintable forallb]. unfold char_isprintable.
      destruct (Z.ltb_spec u 128); [|lia].
      now rewrite andb_true_r.
    - destruct (Z.leb_spec 32 u); destruct (Z.leb_spec u 126);
        cbn [andb]; try reflexivity; lia. }
  split; [rewrite report_interp_lines, Hw;
          destruct ((32 <=? u) && (u <=? 126)); reflexivity|].
  assert (Hp : (32 <=? u) && (u <=? 126) = true <-> 32 <= u <= 126)
    by (rewrite andb_true_iff, !Z.leb_le; tauto).
  split; [|split].
  - rewrite In_interp_report, Hw.
    destruct ((32 <=? u) && (u <=? 126)); cbn [In app]; split.
    + intros _. now apply Hp.
    + tauto.
    + intros H. pick_line H.
    + intros H. apply Hp in H. discriminate.
  - rewrite Hw, Ht. unfold warning.
    destruct (len [b] <? byte_count);
      destruct ((32 <=? u) && (u <=? 126)); cbn [In app]; split;
      try (intros _; now apply Hp);
      try (intros H; apply Hp in H; discriminate);
      try (intros H; pick_line H); tauto.
  - intros text. rewrite Hw, Ht. unfold warning.
    destruct (len [b] <? byte_count);
      destruct ((32 <=? u) && (u <=? 126)); cbn [In app];
      intros H; pick_line H; congruence.
Qed.

Lemma one_byte_report_witness :
  seek_read [x00; x41] 1 4 = Ok [x41]
  /\ exists out,
       analyze_offset (fun _ => false) [x00; x41] 1 4 = Ok out
       /\ In (Interp ASCII (CharVal 65)) out
       /\ In (UTF8_String [65]) out.
Proof.
  split; [reflexivity|].
  destruct (one_byte_report (fun _ => false) [x00; x41] 1 4 x41 eq_refl)
    as (out & Ho & _ & _ & Ha & Hu & _).
  exists out. split; [exact Ho|]. split; [apply Ha | apply Hu];
    vm_compute; split; discriminate.
Defined.

(** X11.  A window whose bytes are all printable ASCII (32 .. 126) gets
    the text line, with one character per byte, whatever the Unicode
    table. *)
Theorem printable_ascii_has_text (P : Z -> bool) (content : bytes)
    (offset byte_count : Z) (data : bytes) :
  seek_read content offset byte_count = Ok data ->
  Forall (fun b => 32 <= byte_to_Z b <= 126) data ->
  exists out,
    analyze_offset P content offset byte_count = Ok out
    /\ In (UTF8_String (map byte_to_Z data)) out.
Proof.
  intros Hr Hf. eexists. split; [apply analyze_offset_spec, Hr|].
  apply in_or_app. right. apply in_or_app. right. apply in_or_app. right.
  unfold utf8_line. rewrite utf8_decode_ascii.
  - assert (Hp : isprintable P (map byte_to_Z data) = true).
    { unfold isprintable. rewrite forallb_forall. intros c Hc.
      apply in_map_iff in Hc. destruct Hc as (b & <- & Hb).
      rewrite Forall_forall in Hf. specialize (Hf b Hb).
      unfold char_isprintable.
      destruct (Z.ltb_spec (byte_to_Z b) 128); [|lia].
      apply andb_true_iff. rewrite !Z.leb_le. lia. }
    rewrite Hp. now left.
  - eapply Forall_impl; [|exact Hf]. cbv beta. intros b Hb. lia.
Qed.

Lemma printable_ascii_has_text_witness :
  seek_read [x4c; x6f; x67; x69; x63; x00] 0 5 = Ok [x4c; x6f; x67; x69; x63]
  /\ exists out,
       analyze_offset (fun _ => false) [x4c; x6f; x67; x69; x63; x00] 0 5
       = Ok out
       /\ In (UTF8_String [76; 111; 103; 105; 99]) out.
Proof.
  split; [reflexivity|].
  apply (printable_ascii_has_text (fun _ => false)
           [x4c; x6f; x67; x69; x63; x00] 0 5 [x4c; x6f; x67; x69; x63]
           eq_refl).
  repeat constructor; vm_compute; discriminate.
Defined.

(** X12.  When a report has a text line, the text has at most as many
    characters as the window has bytes, every character is a Unicode
    scalar value (at most U+10FFFF and no surrogate), and the window
    holds no ASCII control byte (below 32, or 127), whatever the Unicode
    table. *)
Theorem text_line_facts (P : Z -> bool) (content : bytes)
    (offset byte_count : Z) (out : list OutLine) (text : list Z) :
  analyze_offset P content offset byte_count = Ok out ->
  In (UTF8_String text) out ->
  exists data,
    seek_read content offset byte_count = Ok data
    /\ utf8_decode data = Ok text
    /\ len text <= len data
    /\ Forall (fun c => 0 <= c <= 1114111 /\ ~ 55296 <= c <= 57343) text
    /\ (forall b, In b data -> byte_to_Z b < 128 -> 32 <= byte_to_Z b <= 126).
Proof.
  intros Ha Hin.
  destruct (analyze_offset_ok _ _ _ _ _ Ha) as (data & Hr & ->).
  exists data. split; [exact Hr|].
  assert (Hu : In (UTF8_String text) (utf8_line P data)).
  { apply in_app_or in Hin. destruct Hin as [Hin|Hin].
    { unfold warning in Hin. destruct (len data <? byte_count); pick_line Hin. }
    cbn [app In] in Hin.
    destruct Hin as [Hin|[Hin|Hin]]; try discriminate Hin.
    apply in_app_or in Hin. destruct Hin as [Hin|Hin]; [|exact Hin].
    exfalso. unfold width_lines in Hin.
    destruct (len data =? 4); [pick_line Hin|].
    destruct (len data =? 2); [pick_line Hin|].
    destruct (len data =? 1); [|destruct Hin].
    destruct (in_range 32 126 (nth 0 data x00)); pick_line Hin. }
  unfold utf8_line in Hu.
  destruct (utf8_decode data) as [t|e] eqn:Hd; [|destruct Hu].
  destruct (isprintable P t) eqn:Hp; [|destruct Hu].
  destruct Hu as [E|[]]. injection E as ->.
  split; [reflexivity|].
  destruct (utf8_decode_facts (length data) data text (le_n _) Hd)
    as (L & F & A).
  split; [unfold len; lia|]. split; [exact F|].
  intros b Hb Hlt. specialize (A b Hb Hlt).
  unfold isprintable in Hp. rewrite forallb_forall in Hp.
  specialize (Hp _ A). unfold char_isprintable in Hp.
  destruct (Z.ltb_spec (byte_to_Z b) 128); [|lia].
  apply andb_true_iff in Hp. rewrite !Z.leb_le in Hp. exact Hp.
Qed.

Lemma text_line_facts_witness :
  exists out,
    analyze_offset (fun _ => true) [xe2; x82; xac; x41] 0 4 = Ok out
    /\ In (UTF8_String [8364; 65]) out
    /\ len [8364; 65] <= len [xe2; x82; xac; x41].
Proof.
  destruct (analyze_offset (fun _ => true) [xe2; x82; xac; x41] 0 4)
    as [out|e] eqn:Ha; [|vm_compute in Ha; discriminate].
  assert (Hin : In (UTF8_String [8364; 65]) out)
    by (vm_compute in Ha; injection Ha as <-; cbn; tauto).
  destruct (text_line_facts _ _ _ _ _ _ Ha Hin) as (data & Hr & _ & Hl & _).
  vm_compute in Hr. injection Hr as <-.
  exists out. split; [reflexivity|]. split; [exact Hin | exact Hl].
Defined.


(** ** The hexadecimal dump *)

Lemma hex_digit_inj (m n : Z) :
  0 <= m < 16 -> 0 <= n < 16 -> hex_digit m = hex_digit n -> m = n.
Proof.
  intros Hm Hn E. unfold hex_digit in E.
  apply (f_equal N_of_ascii) in E.
  rewrite !N_ascii_embedding in E
    by (destruct (m <? 10), (n <? 10); lia).
  destruct (Z.ltb_spec m 10), (Z.ltb_spec n 10); lia.
Qed.

Lemma byte_to_Z_inj (a b : byte) : byte_to_Z a = byte_to_Z b -> a = b.
Proof.
  intros E. rewrite <- (byte_of_to_Z a 0), <- (byte_of_to_Z b 0), E.
  reflexivity.
Qed.

Lemma hex02_inj (a b : byte) : hex02 a = hex02 b -> a = b.
Proof.
  unfold hex02. intros E. injection E as E1 E2.
  pose proof (byte_to_Z_range a). pose proof (byte_to_Z_range b).
  apply hex_digit_inj in E1; [|Z.div_mod_to_equations; lia ..].
  apply hex_digit_inj in E2; [|Z.div_mod_to_equations; lia ..].
  apply byte_to_Z_inj. Z.div_mod_to_equations. lia.
Qed.

Lemma hex_str_cons2 (a b : byte) (data : bytes) :
  hex_str (a :: b :: data)
  = String (hex_digit (byte_to_Z a / 16))
      (String (hex_digit (byte_to_Z a mod 16))
         (String " " (hex_str (b :: data)))).
Proof. reflexivity. Qed.

(** X13.  The dump of n >= 1 bytes has 3n - 1 characters (two digits per
    byte and the spaces between), the dump of no bytes is empty, and two
    different byte strings never have the same dump. *)
Theorem hex_str_faithful (a b : bytes) :
  Z.of_nat (String.length (hex_str a)) = Z.max 0 (3 * len a - 1)
  /\ (hex_str a = hex_str b -> a = b).
Proof.
  split.
  - induction a as [|x [|y a] IH]; [reflexivity | reflexivity |].
    rewrite hex_str_cons2. cbn [String.length].
    unfold len in *. cbn [length] in *. lia.
  - revert b. induction a as [|x [|y a] IH]; intros [|x' [|y' b]] E;
      try reflexivity;
      rewrite ?hex_str_cons2 in E;
      change (hex_str []) with EmptyString in E;
      repeat match type of E with
             | context [hex_str [?z]] =>
                 change (hex_str [z])
                   with (String (hex_digit (byte_to_Z z / 16))
                           (String (hex_digit (byte_to_Z z mod 16))
                              EmptyString)) in E
             end;
      try discriminate E.
    + f_equal. apply hex02_inj. exact E.
    + injection E as E1 E2 E3.
      assert (x = x') by (apply hex02_inj; unfold hex02; congruence).
      subst. f_equal. now apply IH.
Qed.

(** The dump of four bytes, for a look. *)
Example hex_str_sample : hex_str [x00; x00; x70; x42] = "00 00 70 42"%string.
Proof. reflexivity. Qed.

(** ** The matches of a scan *)

Lemma In_scan_result (data : bytes) (ps : list (Encoding * bytes))
    (i : Z) (e : Encoding) :
  In (i, e) (flat_map (fun p => scan_pass data (snd p) (fst p) []) ps)
  <-> exists tb, In (e, tb) ps /\ 0 <= i <= len data - 4
                 /\ py_slice data i (i + 4) = tb.
Proof.
  rewrite in_flat_map. split.
  - intros ([tag tb] & Hp & Hin). cbn [fst snd] in Hin.
    apply In_scan_pass in Hin. destruct Hin as (-> & Hi & Hs).
    now exists tb.
  - intros (tb & Hp & Hi & Hs). exists (e, tb). split; [exact Hp|].
    cbn [fst snd]. apply In_scan_pass. auto.
Qed.

Lemma scan_ok (data : bytes) (t : PyObj) (value_type : string)
    (ms : list (Z * Encoding)) :
  scan_for_value data t value_type = Ok ms ->
  exists ps,
    encoded_passes value_type t = Ok ps
    /\ ms = flat_map (fun p => scan_pass data (snd p) (fst p) []) ps.
Proof.
  rewrite scan_for_value_spec.
  destruct (encoded_passes value_type t) as [ps|e]; cbn [bind]; [|discriminate].
  intros E. injection E as <-. now exists ps.
Qed.

Lemma slice_embedded (pre data post : bytes) (i : Z) :
  0 <= i <= len data - 4 ->
  py_slice (pre ++ data ++ post) (i + len pre) (i + len pre + 4)
  = py_slice data i (i + 4).
Proof.
  intros Hi.
  destruct (slice_window data i Hi) as [-> _].
  destruct (slice_window (pre ++ data ++ post) (i + len pre)) as [-> _].
  { rewrite !len_app. pose proof (len_nonneg pre). pose proof (len_nonneg post).
    lia. }
  unfold len in *.
  replace (Z.to_nat (i + Z.of_nat (length pre)))
    with (length pre + Z.to_nat i)%nat by lia.
  rewrite skipn_app, skipn_all2 by lia. cbn [app].
  replace (length pre + Z.to_nat i - length pre)%nat with (Z.to_nat i) by lia.
  rewrite skipn_app, firstn_app.
  replace (4 - length (skipn (Z.to_nat i) data))%nat with 0%nat
    by (rewrite length_skipn; lia).
  cbn [firstn]. apply app_nil_r.
Qed.

(** X14.  Bytes put before and after a buffer do not change what the scan
    finds inside it: every match is found again, moved by the length of
    what was put before, and a match of the larger buffer that lies
    inside the original part is a match of the original. *)
Theorem scan_embedding (pre data post : bytes) (t : PyObj)
    (value_type : string) (ms : list (Z * Encoding)) :
  scan_for_value data t value_type = Ok ms ->
  exists ms',
    scan_for_value (pre ++ data ++ post) t value_type = Ok ms'
    /\ (forall i e, In (i, e) ms -> In (i + len pre, e) ms')
    /\ (forall i e, 0 <= i <= len data - 4 ->
                    In (i + len pre, e) ms' -> In (i, e) ms).
Proof.
  intros Hs. destruct (scan_ok _ _ _ _ Hs) as (ps & Hp & ->).
  eexists. split; [rewrite scan_for_value_spec, Hp; reflexivity|].
  split; intros i e.
  - rewrite !In_scan_result. intros (tb & Hin & Hi & Hsl).
    exists tb. split; [exact Hin|]. split.
    + rewrite !len_app. pose proof (len_nonneg pre).
      pose proof (len_nonneg post). lia.
    + now rewrite slice_embedded.
  - intros Hi. rewrite !In_scan_result. intros (tb & Hin & _ & Hsl).
    exists tb. split; [exact Hin|]. split; [exact Hi|].
    now rewrite <- slice_embedded with (pre := pre) (post := post).
Qed.

Lemma scan_embedding_witness :
  exists ms',
    scan_for_value [x00; x00; x70; x42; x09] (PyStr "60") "float"
    = Ok [(0, float_le)]
    /\ scan_for_value ([x01; x02] ++ [x00; x00; x70; x42; x09] ++ [x03])
                      (PyStr "60") "float" = Ok ms'
    /\ In (2, float_le) ms'.
Proof.
  assert (Hs : scan_for_value [x00; x00; x70; x42; x09] (PyStr "60") "float"
               = Ok [(0, float_le)]) by (vm_compute; reflexivity).
  destruct (scan_embedding [x01; x02] _ [x03] _ _ _ Hs) as (ms' & Hs' & Hf & _).
  exists ms'. split; [exact Hs|]. split; [exact Hs'|].
  apply (Hf 0 float_le). now left.
Defined.


(** X15.  What [scan_for_value] prints for a scan that ran: the single
    line "No matches found." when there is no match; otherwise the count,
    which is at least 1, followed by one line per match in the order of
    the matches.  A match line shows the dump of the encoded target of
    the pass of its tag: all lines of one tag show the same bytes. *)
Theorem scan_output_lines (data : bytes) (t : PyObj) (value_type : string)
    (ms : list (Z * Encoding)) :
  scan_for_value data t value_type = Ok ms ->
  exists ps lines,
    encoded_passes value_type t = Ok ps
    /\ scan_for_value_output data t value_type = Ok lines
    /\ (ms = [] -> lines = [No_matches_found])
    /\ (ms <> [] ->
        exists rest,
          lines = Found_matches (len ms) :: rest
          /\ 1 <= len ms
          /\ map (fun l => match l with
                           | Match_at o _ e => Some (o, e)
                           | _ => None
                           end) rest
             = map Some ms)
    /\ (forall o h e,
          In (Match_at o h e) lines ->
          In (o, e) ms /\ exists tb, In (e, tb) ps /\ h = hex_str tb).
Proof.
  intros Hs. destruct (scan_ok _ _ _ _ Hs) as (ps & Hp & Hms).
  exists ps, (report_matches data ms).
  split; [exact Hp|].
  split; [unfold scan_for_value_output; rewrite Hs; reflexivity|].
  split; [intros ->; reflexivity|]. split.
  - intros Hne. destruct ms as [|m ms']; [contradiction|].
    eexists. split; [reflexivity|]. split.
    + unfold len. cbn [length]. lia.
    + rewrite map_map. apply map_ext. intros [o e]. reflexivity.
  - intros o h e Hin.
    assert (Hl : exists m, In m ms /\ Match_at o h e
                   = Match_at (fst m)
                       (hex_str (py_slice data (fst m) (fst m + 4))) (snd m)).
    { destruct ms as [|m ms']; cbn [report_matches In] in Hin.
      - destruct Hin as [Hin|[]]. discriminate Hin.
      - destruct Hin as [Hin|Hin]; [discriminate Hin|].
        apply in_map_iff in Hin. destruct Hin as (m' & E & Hm').
        exists m'. split; [exact Hm' | now symmetry]. }
    destruct Hl as ([o' e'] & Hm & E). cbn [fst snd] in E.
    injection E as -> -> ->. split; [exact Hm|].
    rewrite Hms in Hm. apply In_scan_result in Hm.
    destruct Hm as (tb & Hin' & _ & Hsl). exists tb. now rewrite Hsl.
Qed.

Lemma scan_output_lines_witness :
  scan_for_value [x00; x00; x70; x42; x42; x70; x00; x00] (PyStr "60") "float"
  = Ok [(0, float_le); (4, float_be)]
  /\ exists lines,
       scan_for_value_output [x00; x00; x70; x42; x42; x70; x00; x00]
                             (PyStr "60") "float" = Ok lines
       /\ lines = [Found_matches 2; Match_at 0 "00 00 70 42" float_le;
                   Match_at 4 "42 70 00 00" float_be].
Proof.
  assert (Hs : scan_for_value [x00; x00; x70; x42; x42; x70; x00; x00]
                 (PyStr "60") "float" = Ok [(0, float_le); (4, float_be)])
    by (vm_compute; reflexivity).
  split; [exact Hs|].
  destruct (scan_output_lines _ _ _ _ Hs) as (ps & lines & _ & Hl & _).
  exists lines. split; [exact Hl|].
  vm_compute in Hl. now injection Hl as <-.
Defined.

Lemma passes_shape (value_type : string) (t : PyObj)
    (ps : list (Encoding * bytes)) (e : Encoding) (tb : bytes) :
  encoded_passes value_type t = Ok ps -> In (e, tb) ps ->
  exists a tag1 tag2,
    ps = [(tag1, a); (tag2, rev a)]
    /\ little_endian_tag tag1 = true /\ little_endian_tag tag2 = false
    /\ ((e = tag1 /\ tb = a) \/ (e = tag2 /\ tb = rev a)).
Proof.
  intros Hp Hin.
  destruct (encoded_passes_cases _ _ _ Hp)
    as [(a & _ & _ & ->) | [(a & _ & _ & ->) | (_ & _ & ->)]];
    [| | destruct Hin].
  - exists a, float_le, float_be. repeat split.
    destruct Hin as [E|[E|[]]]; injection E as <- <-; auto.
  - exists a, uint32_le, uint32_be. repeat split.
    destruct Hin as [E|[E|[]]]; injection E as <- <-; auto.
Qed.

(** X16.  Matching is exact on the bytes: when two targets of one class
    are both reported at the same offset with the same tag, they have the
    same encoding, and their scans agree on every buffer. *)
Theorem same_match_same_target (data : bytes) (t1 t2 : PyObj)
    (value_type : string) (ms1 ms2 : list (Z * Encoding)) (i : Z)
    (e : Encoding) :
  scan_for_value data t1 value_type = Ok ms1 ->
  scan_for_value data t2 value_type = Ok ms2 ->
  In (i, e) ms1 -> In (i, e) ms2 ->
  encoded_passes value_type t1 = encoded_passes value_type t2
  /\ forall buffer,
       scan_for_value buffer t1 value_type
       = scan_for_value buffer t2 value_type.
Proof.
  intros H1 H2 I1 I2.
  destruct (scan_ok _ _ _ _ H1) as (ps1 & Hp1 & ->).
  destruct (scan_ok _ _ _ _ H2) as (ps2 & Hp2 & ->).
  apply In_scan_result in I1, I2.
  destruct I1 as (tb1 & Hin1 & _ & Hs1). destruct I2 as (tb2 & Hin2 & _ & Hs2).
  assert (tb1 = tb2) by congruence. subst tb2.
  assert (E : ps1 = ps2).
  { destruct (encoded_passes_cases _ _ _ Hp1)
      as [(a & Hv & _ & ->) | [(a & Hv & _ & ->) | (_ & _ & ->)]];
      [| | destruct Hin1];
      (destruct (encoded_passes_cases _ _ _ Hp2)
         as [(b & Hv' & _ & ->) | [(b & Hv' & _ & ->) | (_ & _ & ->)]];
       [| | destruct Hin2]); try congruence;
      destruct Hin1 as [E1|[E1|[]]]; destruct Hin2 as [E2|[E2|[]]];
      injection E1 as E1a E1b; injection E2 as E2a E2b;
      try congruence;
      assert (a = b) by (apply rev_inj; congruence); congruence. }
  split; [congruence|].
  intros buffer. rewrite !scan_for_value_spec, Hp1, Hp2, E. reflexivity.
Qed.

Lemma same_match_same_target_witness :
  scan_for_value [x00; x00; x70; x42] (PyStr "60") "float" = Ok [(0, float_le)]
  /\ scan_for_value [x00; x00; x70; x42] (PyStr " 6_0.0e0 ") "float"
     = Ok [(0, float_le)]
  /\ encoded_passes "float" (PyStr "60")
     = encoded_passes "float" (PyStr " 6_0.0e0 ").
Proof.
  assert (H1 : scan_for_value [x00; x00; x70; x42] (PyStr "60") "float"
               = Ok [(0, float_le)]) by (vm_compute; reflexivity).
  assert (H2 : scan_for_value [x00; x00; x70; x42] (PyStr " 6_0.0e0 ") "float"
               = Ok [(0, float_le)]) by (vm_compute; reflexivity).
  split; [exact H1|]. split; [exact H2|].
  apply (same_match_same_target _ _ _ _ _ _ 0 float_le H1 H2); now left.
Defined.

(** X17.  An offset is reported under both tags only when the two
    encodings of the target are the same bytes (the encoding reads the
    same in both directions); the two passes then report the same
    offsets. *)
Theorem both_tags_same_bytes (data : bytes) (t : PyObj)
    (value_type : string) (ms : list (Z * Encoding)) (i : Z)
    (e1 e2 : Encoding) :
  scan_for_value data t value_type = Ok ms ->
  In (i, e1) ms -> In (i, e2) ms -> e1 <> e2 ->
  exists tag1 tag2 tb,
    encoded_passes value_type t = Ok [(tag1, tb); (tag2, tb)]
    /\ rev tb = tb
    /\ forall j, In (j, tag1) ms <-> In (j, tag2) ms.
Proof.
  intros Hs I1 I2 Hne.
  destruct (scan_ok _ _ _ _ Hs) as (ps & Hp & ->).
  pose proof I1 as I1'. pose proof I2 as I2'.
  apply In_scan_result in I1', I2'.
  destruct I1' as (tb1 & Hin1 & _ & Hs1). destruct I2' as (tb2 & Hin2 & _ & Hs2).
  assert (tb1 = tb2) by congruence. subst tb2.
  destruct (passes_shape _ _ _ _ _ Hp Hin1) as (a & tag1 & tag2 & -> & L1 & L2 & C1).
  assert (Hrev : rev a = a).
  { destruct Hin1 as [E1|[E1|[]]]; destruct Hin2 as [E2|[E2|[]]];
      injection E1 as E1a E1b; injection E2 as E2a E2b; congruence. }
  exists tag1, tag2, a. rewrite Hrev in *.
  split; [exact Hp|]. split; [reflexivity|].
  intros j. rewrite !In_scan_result. split; intros (tb & Hin & Hj & Hsl).
  - exists a. split; [right; now left|]. split; [exact Hj|].
    destruct Hin as [E|[E|[]]]; assert (Ha : a = tb) by congruence;
      rewrite Ha; exact Hsl.
  - exists a. split; [now left|]. split; [exact Hj|].
    destruct Hin as [E|[E|[]]]; assert (Ha : a = tb) by congruence;
      rewrite Ha; exact Hsl.
Qed.

Lemma both_tags_same_bytes_witness :
  scan_for_value [x01; x00; x00; x00; x00] (PyStr "0.0") "float"
  = Ok [(1, float_le); (1, float_be)]
  /\ exists tag1 tag2 tb,
       encoded_passes "float" (PyStr "0.0") = Ok [(tag1, tb); (tag2, tb)].
Proof.
  assert (Hs : scan_for_value [x01; x00; x00; x00; x00] (PyStr "0.0") "float"
               = Ok [(1, float_le); (1, float_be)]) by (vm_compute; reflexivity).
  split; [exact Hs|].
  destruct (both_tags_same_bytes _ _ _ _ 1 float_le float_be Hs)
    as (tag1 & tag2 & tb & Hp & _); [now left | right; now left | discriminate|].
  now exists tag1, tag2, tb.
Defined.


Lemma map_NoDup {A B : Type} (f : A -> B) (l : list A) :
  (forall x y, f x = f y -> x = y) -> NoDup l -> NoDup (map f l).
Proof.
  intros Hf. induction 1 as [|x l Hx _ IH]; cbn [map]; constructor;
    [|exact IH].
  intros Hin. apply in_map_iff in Hin. destruct Hin as (y & E & Hy).
  apply Hf in E. now subst.
Qed.

Lemma occurrences_NoDup (data tb : bytes) : NoDup (occurrences data tb).
Proof.
  unfold occurrences, py_range. apply NoDup_filter.
  apply map_NoDup; [|apply seq_NoDup].
  intros x y. apply Nat2Z.inj.
Qed.

Lemma tagged_NoDup (tag : Encoding) (offs : list Z) :
  NoDup offs -> NoDup (tagged tag offs).
Proof.
  intros H. unfold tagged. apply map_NoDup; [|exact H].
  intros x y E. now injection E.
Qed.

Lemma len_occurrences (data tb : bytes) :
  len (occurrences data tb) <= Z.max (len data - 3) 0.
Proof.
  rewrite <- len_py_range. unfold occurrences, len.
  apply Nat2Z.inj_le, filter_length_le.
Qed.

(** X18.  The list of matches has no repeated entry, holds at most two
    entries per candidate position (at most 2 * max(len(data) - 3, 0) in
    all), and every offset in it leaves four bytes before the end of the
    buffer. *)
Theorem scan_result_shape (data : bytes) (t : PyObj) (value_type : string)
    (ms : list (Z * Encoding)) :
  scan_for_value data t value_type = Ok ms ->
  NoDup ms
  /\ len ms <= 2 * Z.max (len data - 3) 0
  /\ forall i e, In (i, e) ms -> 0 <= i /\ i + 4 <= len data.
Proof.
  intros Hs. destruct (scan_ok _ _ _ _ Hs) as (ps & Hp & ->).
  split; [|split].
  - destruct (encoded_passes_cases _ _ _ Hp)
      as [(a & _ & _ & ->) | [(a & _ & _ & ->) | (_ & _ & ->)]];
      cbn [flat_map fst snd]; [| | constructor];
      rewrite app_nil_r, !scan_pass_spec, !app_nil_l;
      (apply NoDup_app;
       [apply tagged_NoDup, occurrences_NoDup
       |apply tagged_NoDup, occurrences_NoDup
       |intros [i e] H1 H2; apply In_tagged in H1, H2;
        destruct H1 as [-> _]; destruct H2 as [E _]; discriminate E]).
  - destruct (encoded_passes_cases _ _ _ Hp)
      as [(a & _ & _ & ->) | [(a & _ & _ & ->) | (_ & _ & ->)]];
      cbn [flat_map fst snd];
      [| | change (len (@nil (Z * Encoding))) with 0; lia];
      rewrite app_nil_r, !scan_pass_spec, !app_nil_l, len_app;
      unfold tagged, len; rewrite !length_map;
      pose proof (len_occurrences data a);
      pose proof (len_occurrences data (rev a)); unfold len in *; lia.
  - intros i e Hin. apply In_scan_result in Hin.
    destruct Hin as (tb & _ & Hi & _). lia.
Qed.

Lemma scan_result_shape_witness :
  scan_for_value [x00; x00; x00; x00; x00] (PyInt 0) "int"
  = Ok [(0, uint32_le); (1, uint32_le); (0, uint32_be); (1, uint32_be)]
  /\ len [(0, uint32_le); (1, uint32_le); (0, uint32_be); (1, uint32_be)]
     <= 2 * Z.max (len [x00; x00; x00; x00; x00] - 3) 0.
Proof.
  assert (Hs : scan_for_value [x00; x00; x00; x00; x00] (PyInt 0) "int"
               = Ok [(0, uint32_le); (1, uint32_le);
                     (0, uint32_be); (1, uint32_be)])
    by (vm_compute; reflexivity).
  split; [exact Hs|].
  exact (proj1 (proj2 (scan_result_shape _ _ _ _ Hs))).
Defined.
